(** * SDP3x-Arduino: the I2C driver of the Sensirion SDP31/SDP32 sensors

    A shallow embedding of [SDP3x.cpp] and [SDP3x.h] (the revision whose
    methods are [WriteCommand], [ReadData], [Begin], [StartContinuous],
    [StopContinuous], [TriggerMeasurement], [GetMeasurement],
    [ReadProductID], [Reset], [GetPressureScale], [GetTemperatureScale]),
    with the properties of its protocol layer.

    Conventions.
    - [uint8_t], [uint32_t], [uint64_t], [size_t] values are [Z] numbers in
      the range of their type; a narrowing store is written out as a
      reduction modulo the width ([to_uint8], [to_uint32], ...).
      [int16_t] is two's complement: [to_int16] wraps, as gcc does on the
      targets of the Arduino tool chain, also for a left shift.
    - The enumerations [Model] and [TempCompensation] are kept as the
      integers the compiler gives them, because both [switch] statements
      over them have a [default] branch and the constructor leaves
      [number] unset.
    - The driver object, the global [Wire] object and the memory the caller
      passes pointers into form one [World], threaded through a state
      monad.  The code never checks an index into [uint8_t buffer[13]],
      and neither does the compiled program: a store at an index from 13
      on lands in the bytes behind the array, which is the last member of
      the object.  The list [buffer] then holds these bytes as well, so a
      buffer of more than 13 elements is an array that has been overrun.
      Reading a byte that is in neither part has no value: the failure
      [None] of the monad.
    - [Wire] (the Arduino TwoWire class) is not part of the library.  Module
      [Wire] models what the driver can observe of it: the calls it receives
      (kept in a log), the receive queue, and a script of the answers the
      bus will give. *)

From Stdlib Require Import ZArith List Bool Lia.
From stdpp Require Import base option list.
Import ListNotations.
Open Scope Z_scope.

(** ** Machine integers *)

Definition to_uint8 (z : Z) : Z := z mod 2 ^ 8.
Definition to_uint32 (z : Z) : Z := z mod 2 ^ 32.
Definition to_uint64 (z : Z) : Z := z mod 2 ^ 64.
Definition to_int16 (z : Z) : Z := (z + 2 ^ 15) mod 2 ^ 16 - 2 ^ 15.

Definition is_uint8 (z : Z) : Prop := 0 <= z < 256.

(** ** Constants of SDP3x.h *)

(** [enum Model { SDP31, SDP32 }] *)
Definition SDP31 : Z := 0.
Definition SDP32 : Z := 1.

Definition Address1 : Z := 0x21.
Definition Address2 : Z := 0x22.
Definition Address3 : Z := 0x23.

(** A command is a [const uint8_t [2]]. *)
Definition Command : Type := (Z * Z)%type.

Definition StartContMassFlowAvg : Command := (0x36, 0x03).
Definition StartContMassFlow : Command := (0x36, 0x08).
Definition StartContDiffPressureAvg : Command := (0x36, 0x15).
Definition StartContDiffPressure : Command := (0x36, 0x1E).
Definition StopCont : Command := (0x3F, 0xF9).
Definition TrigMassFlow : Command := (0x36, 0x24).
Definition TrigMassFlowStretch : Command := (0x37, 0x26).
Definition TrigDiffPressure : Command := (0x36, 0x2F).
Definition TrigDiffPressureStretch : Command := (0x37, 0x2D).
Definition ReadInfo1 : Command := (0x36, 0x7C).
Definition ReadInfo2 : Command := (0xE1, 0x02).
Definition SoftReset : Command := (0x00, 0x06).

(** [enum TempCompensation { MassFlow, DiffPressure }] *)
Definition MassFlow : Z := 0.
Definition DiffPressure : Z := 1.

Definition SDP31_PID : Z := 0x03010188.
Definition SDP32_PID : Z := 0x03010288.
Definition SDP31_DiffScale : Z := 60.
Definition SDP32_DiffScale : Z := 240.
Definition SDP3X_TempScale : Z := 200.

(** The CRC-8 lookup table, entry for entry. *)
Definition CRC_LUT : list Z :=
  [ 0x00; 0x31; 0x62; 0x53; 0xC4; 0xF5; 0xA6; 0x97; 0xB9; 0x88; 0xDB; 0xEA; 0x7D; 0x4C; 0x1F;
    0x2E; 0x43; 0x72; 0x21; 0x10; 0x87; 0xB6; 0xE5; 0xD4; 0xFA; 0xCB; 0x98; 0xA9; 0x3E; 0x0F;
    0x5C; 0x6D; 0x86; 0xB7; 0xE4; 0xD5; 0x42; 0x73; 0x20; 0x11; 0x3F; 0x0E; 0x5D; 0x6C; 0xFB;
    0xCA; 0x99; 0xA8; 0xC5; 0xF4; 0xA7; 0x96; 0x01; 0x30; 0x63; 0x52; 0x7C; 0x4D; 0x1E; 0x2F;
    0xB8; 0x89; 0xDA; 0xEB; 0x3D; 0x0C; 0x5F; 0x6E; 0xF9; 0xC8; 0x9B; 0xAA; 0x84; 0xB5; 0xE6;
    0xD7; 0x40; 0x71; 0x22; 0x13; 0x7E; 0x4F; 0x1C; 0x2D; 0xBA; 0x8B; 0xD8; 0xE9; 0xC7; 0xF6;
    0xA5; 0x94; 0x03; 0x32; 0x61; 0x50; 0xBB; 0x8A; 0xD9; 0xE8; 0x7F; 0x4E; 0x1D; 0x2C; 0x02;
    0x33; 0x60; 0x51; 0xC6; 0xF7; 0xA4; 0x95; 0xF8; 0xC9; 0x9A; 0xAB; 0x3C; 0x0D; 0x5E; 0x6F;
    0x41; 0x70; 0x23; 0x12; 0x85; 0xB4; 0xE7; 0xD6; 0x7A; 0x4B; 0x18; 0x29; 0xBE; 0x8F; 0xDC;
    0xED; 0xC3; 0xF2; 0xA1; 0x90; 0x07; 0x36; 0x65; 0x54; 0x39; 0x08; 0x5B; 0x6A; 0xFD; 0xCC;
    0x9F; 0xAE; 0x80; 0xB1; 0xE2; 0xD3; 0x44; 0x75; 0x26; 0x17; 0xFC; 0xCD; 0x9E; 0xAF; 0x38;
    0x09; 0x5A; 0x6B; 0x45; 0x74; 0x27; 0x16; 0x81; 0xB0; 0xE3; 0xD2; 0xBF; 0x8E; 0xDD; 0xEC;
    0x7B; 0x4A; 0x19; 0x28; 0x06; 0x37; 0x64; 0x55; 0xC2; 0xF3; 0xA0; 0x91; 0x47; 0x76; 0x25;
    0x14; 0x83; 0xB2; 0xE1; 0xD0; 0xFE; 0xCF; 0x9C; 0xAD; 0x3A; 0x0B; 0x58; 0x69; 0x04; 0x35;
    0x66; 0x57; 0xC0; 0xF1; 0xA2; 0x93; 0xBD; 0x8C; 0xDF; 0xEE; 0x79; 0x48; 0x1B; 0x2A; 0xC1;
    0xF0; 0xA3; 0x92; 0x05; 0x34; 0x67; 0x56; 0x78; 0x49; 0x1A; 0x2B; 0xBC; 0x8D; 0xDE; 0xEF;
    0x82; 0xB3; 0xE0; 0xD1; 0x46; 0x77; 0x24; 0x15; 0x3B; 0x0A; 0x59; 0x68; 0xFF; 0xCE; 0x9D;
    0xAC ].

(** [CRC_LUT[i]] for an index that is a [uint8_t]. *)
Definition CRC_LUT_at (i : Z) : Z := nth (Z.to_nat i) CRC_LUT 0.

(** [crc = CRC_LUT[crc ^ *next]], the update in [ReadData]. *)
Definition crc_update (crc byte : Z) : Z := CRC_LUT_at (Z.lxor crc byte).

(** The check value [ReadData] holds after the two payload bytes of a word:
    [crc] starts from 0xFF and is updated with each of them. *)
Definition crc_word (b0 b1 : Z) : Z := crc_update (crc_update 0xFF b0) b1.

(** ** CRC-8 bit by bit

    The reference the table is compared with: polynomial 0x31, initial
    value 0xFF, most significant bit first (no reflection of input or
    output), no final XOR. *)

Definition crc8_shift (crc : Z) : Z :=
  if Z.testbit crc 7
  then to_uint8 (Z.lxor (Z.shiftl crc 1) 0x31)
  else to_uint8 (Z.shiftl crc 1).

Definition crc8_byte (crc byte : Z) : Z :=
  Nat.iter 8 crc8_shift (Z.lxor crc byte).

Definition crc8_bitwise (data : list Z) : Z :=
  fold_left crc8_byte data 0xFF.

(** ** The bus *)

Module Wire.

(** The calls the driver makes on the global [Wire] object. *)
Inductive Call : Type :=
| CallBegin (address : Z)
| CallWrite (data : list Z)
| CallEnd
| CallRequest (address quantity : Z)
| CallRead.

(** [calls]: every call so far, oldest first.  [rxBuffer]: the bytes
    of the last [requestFrom] not yet handed out by [read].  The other
    three fields script the bus: what the next [write] calls return,
    what the next [endTransmission] calls return, and what a device
    would send on the next [requestFrom] calls. *)
Record TwoWire : Type := mkTwoWire {
  calls : list Call;
  rxBuffer : list Z;
  writeResults : list Z;
  endResults : list Z;
  deviceData : list (list Z)
}.

Definition beginTransmission (address : Z) (w : TwoWire) : TwoWire :=
  mkTwoWire (calls w ++ [CallBegin address]) (rxBuffer w)
            (writeResults w) (endResults w) (deviceData w).

(** [write] returns the number of bytes it took; a bus whose script has
    run out takes none. *)
Definition write (data : list Z) (w : TwoWire) : Z * TwoWire :=
  (hd 0 (writeResults w),
   mkTwoWire (calls w ++ [CallWrite data]) (rxBuffer w)
             (tl (writeResults w)) (endResults w) (deviceData w)).

(** [endTransmission] returns the status: 0 is success, 2 and 3 are a
    NACK on the address or on data, 4 another error (also the answer of
    a bus whose script has run out). *)
Definition endTransmission (w : TwoWire) : Z * TwoWire :=
  (hd 4 (endResults w),
   mkTwoWire (calls w ++ [CallEnd]) (rxBuffer w)
             (writeResults w) (tl (endResults w)) (deviceData w)).

(** What [requestFrom] receives: at most [quantity] bytes of what the
    device has to send. *)
Definition delivered (quantity : Z) (w : TwoWire) : list Z :=
  map to_uint8 (firstn (Z.to_nat quantity) (hd [] (deviceData w))).

(** [requestFrom] replaces the receive queue and returns the number of
    bytes received. *)
Definition requestFrom (address quantity : Z) (w : TwoWire) : Z * TwoWire :=
  (Z.of_nat (length (delivered quantity w)),
   mkTwoWire (calls w ++ [CallRequest address quantity])
             (delivered quantity w)
             (writeResults w) (endResults w) (tl (deviceData w))).

(** [read] hands out the next received byte, or -1 when there is none. *)
Definition read (w : TwoWire) : Z * TwoWire :=
  (hd (-1) (rxBuffer w),
   mkTwoWire (calls w ++ [CallRead]) (tl (rxBuffer w))
             (writeResults w) (endResults w) (deviceData w)).

(** The bus after [k] calls of [read]. *)
Definition drained (k : nat) (w : TwoWire) : TwoWire :=
  Nat.iter k (fun w' => snd (read w')) w.

End Wire.

(** ** The driver object and the world around it *)

(** [class SDP3x]: the private members. *)
Record SDP3x : Type := mkSDP3x {
  number : Z;
  addr : Z;
  comp : Z;
  buffer : list Z
}.

(** [uint8_t buffer[13]] *)
Definition buffer_size : nat := 13.

(** Memory of the caller: one cell for each object a pointer argument can
    point to.  A pointer is the address of a cell, [None] is [NULL]. *)
Definition Memory : Type := N -> Z.
Definition Pointer : Type := option N.

Record World : Type := mkWorld {
  self : SDP3x;
  bus : Wire.TwoWire;
  mem : Memory
}.

(** ** State and failure *)

Definition M (A : Type) : Type := World -> option (A * World).

Definition ret {A} (a : A) : M A := fun σ => Some (a, σ).

Definition bind {A B} (m : M A) (k : A -> M B) : M B :=
  fun σ => match m σ with
           | Some (a, σ') => k a σ'
           | None => None
           end.

Notation "x <- c1 ;; c2" := (bind c1 (fun x => c2))
  (at level 100, c1 at next level, right associativity).
Notation "c1 ;; c2" := (bind c1 (fun _ => c2))
  (at level 100, right associativity).

Definition when (c : bool) (m : M unit) : M unit :=
  if c then m else ret tt.

(** Updates of one component of the world. *)
Definition set_buffer (buf : list Z) (σ : World) : World :=
  mkWorld (mkSDP3x (number (self σ)) (addr (self σ)) (comp (self σ)) buf)
          (bus σ) (mem σ).

Definition set_bus (w : Wire.TwoWire) (σ : World) : World :=
  mkWorld (self σ) w (mem σ).

Definition set_mem (m : Memory) (σ : World) : World :=
  mkWorld (self σ) (bus σ) m.

(** Members of [this]. *)
Definition this : M SDP3x := fun σ => Some (self σ, σ).

Definition set_number (v : Z) : M unit := fun σ =>
  Some (tt, mkWorld (mkSDP3x v (addr (self σ)) (comp (self σ)) (buffer (self σ)))
                    (bus σ) (mem σ)).

(** [this->buffer[i]] as a value: an element of the array or a byte stored
    behind it; any other byte has no known value. *)
Definition peek (i : nat) : M Z := fun σ =>
  match buffer (self σ) !! i with
  | Some v => Some (v, σ)
  | None => None
  end.

(** [this->buffer[i] = v], unchecked: inside the list the element is
    replaced; a store further out extends the list up to that byte (a byte
    in between that no store has reached is shown as 0). *)
Definition poke (i : nat) (v : Z) : M unit := fun σ =>
  if (i <? length (buffer (self σ)))%nat
  then Some (tt, set_buffer (<[i := v]> (buffer (self σ))) σ)
  else Some (tt, set_buffer (buffer (self σ) ++
                             repeat 0 (i - length (buffer (self σ))) ++ [v]) σ).

(** [*p] and [*p = v] for a pointer of the caller. *)
Definition load (p : N) : M Z := fun σ => Some (mem σ p, σ).

Definition store (p : N) (v : Z) : M unit := fun σ =>
  Some (tt, set_mem (fun q => if N.eqb q p then v else mem σ q) σ).

(** The methods of [Wire] as actions. *)
Definition on_bus {A} (f : Wire.TwoWire -> A * Wire.TwoWire) : M A := fun σ =>
  Some (fst (f (bus σ)), set_bus (snd (f (bus σ))) σ).

Definition Wire_beginTransmission (address : Z) : M unit :=
  on_bus (fun w => (tt, Wire.beginTransmission address w)).
Definition Wire_write (data : list Z) : M Z := on_bus (Wire.write data).
Definition Wire_endTransmission : M Z := on_bus Wire.endTransmission.
Definition Wire_requestFrom (address quantity : Z) : M Z :=
  on_bus (Wire.requestFrom address quantity).
Definition Wire_read : M Z := on_bus Wire.read.

(** ** SDP3x.cpp *)

(** [bool SDP3x::WriteCommand(const uint8_t cmd[2])] *)
Definition WriteCommand (cmd : Command) : M bool :=
  s <- this ;;
  Wire_beginTransmission (addr s) ;;
  written <- Wire_write [fst cmd; snd cmd] ;;
  status <- Wire_endTransmission ;;
  ret ((status =? 0) && (written =? 2)).

(** The clearing loop of [ReadData]:
    [for (next = &this->buffer[12]; next > this->buffer; next--) *next = 0;]
    with [next] as an index into [buffer]. *)
Fixpoint clear_buffer (next : nat) : M unit :=
  match next with
  | O => ret tt
  | S below => poke next 0 ;; clear_buffer below
  end.

(** The reading loop of [ReadData]: [for (; read > 0; read--) { ... }] with
    the locals [next] (as an index), [crc] and [success]. *)
Fixpoint read_bytes (read : nat) (next : nat) (crc : Z) (success : bool) : M bool :=
  match read with
  | O => ret success
  | S read' =>
      byte <- Wire_read ;;
      poke next (to_uint8 byte) ;;
      stored <- peek next ;;
      if Z.of_nat read mod 3 =? 1
      then read_bytes read' next 0xFF (success && (crc =? stored))
      else read_bytes read' (S next) (crc_update crc stored) success
  end.

(** [bool SDP3x::ReadData(uint8_t words)] *)
Definition ReadData (words : Z) : M bool :=
  clear_buffer 12 ;;
  s <- this ;;
  read <- Wire_requestFrom (addr s) (to_uint8 (words * 3)) ;;
  let success := if negb (read =? 3 * words) then false else true in
  read_bytes (Z.to_nat read) 0 0xFF success.

(** [SDP3x::SDP3x(const uint8_t addr, TempCompensation comp)]: the object is
    built in storage whose previous content is [raw]; [number] and [buffer]
    keep it. *)
Definition SDP3x_new (raw : SDP3x) (addr0 : Z) (comp0 : Z) : SDP3x :=
  mkSDP3x (number raw) addr0 comp0 (buffer raw).

(** [bool SDP3x::StartContinuous(bool averaging)] *)
Definition StartContinuous (averaging : bool) : M bool :=
  s <- this ;;
  if comp s =? MassFlow then
    if averaging then WriteCommand StartContMassFlowAvg
    else WriteCommand StartContMassFlow
  else if comp s =? DiffPressure then
    if averaging then WriteCommand StartContDiffPressureAvg
    else WriteCommand StartContDiffPressure
  else ret false.

(** [bool SDP3x::StopContinuous()] *)
Definition StopContinuous : M bool := WriteCommand StopCont.

(** [bool SDP3x::TriggerMeasurement(bool stretching)] *)
Definition TriggerMeasurement (stretching : bool) : M bool :=
  s <- this ;;
  if comp s =? MassFlow then
    if stretching then WriteCommand TrigMassFlowStretch
    else WriteCommand TrigMassFlow
  else if comp s =? DiffPressure then
    if stretching then WriteCommand TrigDiffPressureStretch
    else WriteCommand TrigDiffPressure
  else ret false.

(** [*p <<= 8; *p |= (T) this->buffer[i];] for an object of an integer type
    [T] whose stores reduce with [wrap]. *)
Definition shift_in (wrap : Z -> Z) (p : N) (i : nat) : M unit :=
  v <- load p ;;
  store p (wrap (Z.shiftl v 8)) ;;
  v <- load p ;;
  b <- peek i ;;
  store p (wrap (Z.lor v b)).

(** [for (words = 0; words < count; words++) { *p <<= 8; *p |= (T) this->buffer[words + first]; }]
    with [i] for [words + first] and [left] for the iterations left. *)
Fixpoint shift_in_bytes (wrap : Z -> Z) (p : N) (i : nat) (left : nat) : M unit :=
  match left with
  | O => ret tt
  | S left' => shift_in wrap p i ;; shift_in_bytes wrap p (S i) left'
  end.

(** [if (p != NULL) { ... }] *)
Definition if_not_null (p : Pointer) (body : N -> M unit) : M unit :=
  match p with
  | Some a => body a
  | None => ret tt
  end.

Definition is_null (p : Pointer) : bool :=
  match p with Some _ => false | None => true end.

(** [bool SDP3x::GetMeasurement(int16_t *pressure, int16_t *temp, int16_t *scale)].
    The [switch (words)] has no [break]: case 3 runs into case 2 and case 2
    into case 1. *)
Definition GetMeasurement (pressure temp scale : Pointer) : M bool :=
  let words := if negb (is_null scale) then 3
               else if negb (is_null temp) then 2
               else 1 in
  ok <- ReadData words ;;
  if negb ok then ret false else
  when (words =? 3)
    (if_not_null scale (fun p => shift_in to_int16 p 4 ;; shift_in to_int16 p 5)) ;;
  when ((words =? 3) || (words =? 2))
    (if_not_null temp (fun p => shift_in to_int16 p 2 ;; shift_in to_int16 p 3)) ;;
  when ((words =? 3) || (words =? 2) || (words =? 1))
    (if_not_null pressure (fun p => shift_in to_int16 p 0 ;; shift_in to_int16 p 1)) ;;
  ret true.

(** [bool SDP3x::ReadProductID(uint32_t *pid, uint64_t *serial)].
    Again the [switch (words)] falls through from case 4 into case 2. *)
Definition ReadProductID (pid serial : Pointer) : M bool :=
  let words := if negb (is_null serial) then 4 else 2 in
  ok1 <- WriteCommand ReadInfo1 ;;
  if negb ok1 then ret false else
  ok2 <- WriteCommand ReadInfo2 ;;
  if negb ok2 then ret false else
  ok <- ReadData words ;;
  if negb ok then ret false else
  when (words =? 4)
    (if_not_null serial (fun p => shift_in_bytes to_uint64 p 4 8)) ;;
  when ((words =? 4) || (words =? 2))
    (if_not_null pid (fun p => shift_in_bytes to_uint32 p 0 4)) ;;
  ret true.

(** [bool SDP3x::readProductID(uint32_t *pid, uint64_t *serial)], the same
    method in the later revision of SDP3x.cpp, in which the methods are
    spelled [writeCommand], [readData], ...: it reads 6 words for a serial
    number, and is [ReadProductID] in everything else. *)
Definition readProductID (pid serial : Pointer) : M bool :=
  let words := if negb (is_null serial) then 6 else 2 in
  ok1 <- WriteCommand ReadInfo1 ;;
  if negb ok1 then ret false else
  ok2 <- WriteCommand ReadInfo2 ;;
  if negb ok2 then ret false else
  ok <- ReadData words ;;
  if negb ok then ret false else
  when (words =? 6)
    (if_not_null serial (fun p => shift_in_bytes to_uint64 p 4 8)) ;;
  when ((words =? 6) || (words =? 2))
    (if_not_null pid (fun p => shift_in_bytes to_uint32 p 0 4)) ;;
  ret true.

(** [bool SDP3x::Begin()]; [modelNumber] is the address of its local
    variable of that name. *)
Definition Begin (modelNumber : N) : M bool :=
  ok <- ReadProductID (Some modelNumber) None ;;
  if negb ok then ret false else
  id <- load modelNumber ;;
  if id =? SDP31_PID then set_number SDP31 ;; ret true
  else if id =? SDP32_PID then set_number SDP32 ;; ret true
  else ret false.

(** [bool SDP3x::Reset()] *)
Definition Reset : M bool :=
  Wire_beginTransmission (fst SoftReset) ;;
  written <- Wire_write [snd SoftReset] ;;
  status <- Wire_endTransmission ;;
  if negb (status =? 0) then ret false else
  ret (written =? 1).

(** [uint8_t SDP3x::GetPressureScale()] *)
Definition GetPressureScale (s : SDP3x) : Z :=
  if number s =? SDP31 then SDP31_DiffScale
  else if number s =? SDP32 then SDP32_DiffScale
  else 1.

(** [uint8_t SDP3x::GetTemperatureScale()] *)
Definition GetTemperatureScale (s : SDP3x) : Z := SDP3X_TempScale.

(** * Specification vocabulary

    Definitions used only to state the properties. *)

(** The table entry [i] agrees with eight shift steps of the bitwise CRC. *)
Definition table_entry_ok (i : nat) : bool :=
  CRC_LUT_at (Z.of_nat i) =? Nat.iter 8 crc8_shift (Z.of_nat i).

(** The representation invariant of [uint8_t buffer[13]]: thirteen
    elements, each a [uint8_t]. *)
Definition valid (σ : World) : Prop :=
  length (buffer (self σ)) = buffer_size /\ Forall is_uint8 (buffer (self σ)).

(** The value of [success] at the end of the reading loop, as a function of
    the bytes [read] hands out: the loop without the buffer and the bus. *)
Fixpoint crc_scan (read : nat) (crc : Z) (success : bool) (rx : list Z) : bool :=
  match read with
  | O => success
  | S read' =>
      let stored := to_uint8 (hd (-1) rx) in
      if Z.of_nat read mod 3 =? 1
      then crc_scan read' 0xFF (success && (crc =? stored)) (tl rx)
      else crc_scan read' (crc_update crc stored) success (tl rx)
  end.

(** Every word [b0 b1 c] of a received byte sequence carries the check
    value of its two payload bytes. *)
Fixpoint words_ok (d : list Z) : bool :=
  match d with
  | b0 :: b1 :: c :: rest => (crc_word b0 b1 =? c) && words_ok rest
  | _ => true
  end.

(** The unsigned number whose bytes, most significant first, are [bytes]. *)
Definition big_endian (bytes : list Z) : Z :=
  fold_left (fun acc b => acc * 256 + b) bytes 0.

(** ** Worlds to run the driver in *)

(** Storage filled with zeros, as that of an object with static storage
    duration is before its constructor runs. *)
Definition zeroed_storage : SDP3x := mkSDP3x 0 0 0 (repeat 0 13).

(** A driver at [Address1], built in zeroed storage, on a bus with the
    given script and no call made yet; every object of the caller holds
    0x5A5A, for whatever was there before. *)
Definition world_with (comp0 : Z) (writes ends : list Z) (data : list (list Z)) : World :=
  mkWorld (SDP3x_new zeroed_storage Address1 comp0)
          (Wire.mkTwoWire [] [] writes ends data)
          (fun _ => 0x5A5A).

(** One word, as the sensor sends it: two payload bytes and their check
    value. *)
Definition word (b0 b1 : Z) : list Z := [b0; b1; crc_word b0 b1].

(** A device that answers a read with seven correct words (21 bytes). *)
Definition seven_words : list Z :=
  word 0x00 0x01 ++ word 0x02 0x03 ++ word 0x04 0x05 ++ word 0x06 0x07 ++
  word 0x08 0x09 ++ word 0x0A 0x0B ++ word 0x0C 0x0D.

Definition world_seven_words : World := world_with MassFlow [] [] [seven_words].

(** The same device cut off after 20 bytes. *)
Definition world_twenty_bytes : World :=
  world_with MassFlow [] [] [firstn 20 seven_words].

(** [m], run in [σ], returns and makes exactly one write transaction on
    the bus: it is addressed to [address] and carries [bytes]. *)
Definition sends (m : M bool) (σ : World) (address : Z) (bytes : list Z) : Prop :=
  exists ok σ',
    m σ = Some (ok, σ') /\
    Wire.calls (bus σ') =
      Wire.calls (bus σ) ++
      [Wire.CallBegin address; Wire.CallWrite bytes; Wire.CallEnd].

(** Byte [i] of the scratch buffer. *)
Definition buffer_byte (σ : World) (i : nat) : Z := nth i (buffer (self σ)) 0.

(** [σ'] is [σ] with the object at [p] set to [v]: driver and bus are the
    same, and so is every other object of the caller. *)
Definition stored_at (p : N) (v : Z) (σ σ' : World) : Prop :=
  self σ' = self σ /\ bus σ' = bus σ /\
  mem σ' p = v /\ forall q, q <> p -> mem σ' q = mem σ q.

(** What a returning [ReadData words] leaves behind in [σ1], started in
    [σ]: a buffer that is still an array of 13 bytes, the members [number],
    [addr], [comp] and the memory of the caller untouched, and on the bus
    one request for [3 * words] bytes followed by one [read] for each byte
    received. *)
Definition after_ReadData (words : Z) (σ σ1 : World) : Prop :=
  valid σ1 /\ mem σ1 = mem σ /\
  number (self σ1) = number (self σ) /\
  addr (self σ1) = addr (self σ) /\
  comp (self σ1) = comp (self σ) /\
  Wire.calls (bus σ1) =
    Wire.calls (bus σ) ++
    Wire.CallRequest (addr (self σ)) (3 * words) ::
    repeat Wire.CallRead (length (Wire.delivered (3 * words) (bus σ))).

(** A sensor that accepts both information commands and answers with the
    product identifier 0x03010188 and the first two words of a serial
    number. *)
Definition world_sdp31_info : World :=
  world_with MassFlow [2; 2] [0; 0]
    [word 0x03 0x01 ++ word 0x01 0x88 ++ word 0xA1 0xA2 ++ word 0xA3 0xA4].

(** A device that accepts both information commands and answers with the
    product identifier 0x03010388, which is neither [SDP31_PID] nor
    [SDP32_PID]. *)
Definition world_unknown_sensor : World :=
  world_with MassFlow [2; 2] [0; 0] [word 0x03 0x01 ++ word 0x03 0x88].

(** The same sensor with all six words of its answer: the product
    identifier and the serial number 0xA1A2A3A4A5A6A7A8. *)
Definition world_sdp31_serial : World :=
  world_with MassFlow [2; 2] [0; 0]
    [word 0x03 0x01 ++ word 0x01 0x88 ++ word 0xA1 0xA2 ++ word 0xA3 0xA4 ++
     word 0xA5 0xA6 ++ word 0xA7 0xA8].

(** ** The later revision of SDP3x.cpp

    Its methods are those above under the names [writeCommand],
    [readData], [begin], [startContinuous], [stopContinuous],
    [triggerMeasurement], [readMeasurement], [getPressureScale] and
    [getTemperatureScale], statement for statement; [readProductID] (above)
    and [reset] are the two that differ. *)

(** [bool SDP3x::reset()] *)
Definition reset : M bool :=
  Wire_beginTransmission (fst SoftReset) ;;
  written <- Wire_write [snd SoftReset] ;;
  status <- Wire_endTransmission ;;
  ret ((written =? 1) && (status =? 0)).

(** ** More specification vocabulary *)

(** The payload bytes of a sequence of words, in the order received. *)
Fixpoint payload (d : list Z) : list Z :=
  match d with
  | b0 :: b1 :: _ :: rest => b0 :: b1 :: payload rest
  | _ => []
  end.

(** The buffer after the reading loop has taken the words [d], the first
    payload byte going to index [next]: each word is stored in three
    consecutive elements, and the next word starts on the check byte of
    the one before. *)
Fixpoint store_words (next : nat) (d : list Z) (buf : list Z) : list Z :=
  match d with
  | b0 :: b1 :: c :: rest =>
      store_words (S (S next)) rest
        (<[S (S next) := c]> (<[S next := b1]> (<[next := b0]> buf)))
  | _ => buf
  end.

(** What a sensor sends after the two information commands: the product
    identifier in two words, then the serial number in four. *)
Definition info_words (p0 p1 p2 p3 s0 s1 s2 s3 s4 s5 s6 s7 : Z) : list Z :=
  word p0 p1 ++ word p2 p3 ++
  word s0 s1 ++ word s2 s3 ++ word s4 s5 ++ word s6 s7.

(** No two of the table entries [i] and [j] are equal unless [i = j]. *)
Definition table_pair_ok (i j : nat) : bool :=
  implb (CRC_LUT_at (Z.of_nat i) =? CRC_LUT_at (Z.of_nat j)) (Nat.eqb i j).

(** A call that transmits: [beginTransmission], [write] or
    [endTransmission], as opposed to [requestFrom] and [read]. *)
Definition is_transmit (c : Wire.Call) : bool :=
  match c with
  | Wire.CallBegin _ | Wire.CallWrite _ | Wire.CallEnd => true
  | Wire.CallRequest _ _ | Wire.CallRead => false
  end.

(** [m], run in [σ], returns, leaves alone the driver object and the memory
    of the caller, and makes the calls [new] on the bus, none of which asks
    for or reads a byte. *)
Definition only_writes (m : M bool) (σ : World) : Prop :=
  exists ok σ' new,
    m σ = Some (ok, σ') /\
    self σ' = self σ /\ mem σ' = mem σ /\
    Wire.calls (bus σ') = Wire.calls (bus σ) ++ new /\
    forallb is_transmit new = true.

(** [σ'] has a buffer that is still an array of 13 bytes and the [addr] and
    [comp] of [σ]. *)
Definition configuration_kept (σ σ' : World) : Prop :=
  valid σ' /\ addr (self σ') = addr (self σ) /\ comp (self σ') = comp (self σ).

(** * Properties *)

(** Linear arithmetic with division and remainder by constants. *)
Ltac lia_div := zify; Z.to_euclidean_division_equations; lia.

(** ** Machine integers *)

Lemma to_uint8_range (z : Z) : is_uint8 (to_uint8 z).
Proof. unfold is_uint8, to_uint8. apply Z.mod_pos_bound. reflexivity. Qed.

Lemma to_uint8_id (z : Z) : is_uint8 z -> to_uint8 z = z.
Proof. unfold is_uint8, to_uint8. intros H. apply Z.mod_small. exact H. Qed.

Lemma lxor_uint8 (a b : Z) : is_uint8 a -> is_uint8 b -> is_uint8 (Z.lxor a b).
Proof.
  unfold is_uint8. intros Ha Hb.
  assert (Hx : Z.lxor a b = Z.lxor a b mod 2 ^ 8).
  { apply Z.bits_inj'. intros i Hi.
    destruct (Z.lt_ge_cases i 8) as [Hlt | Hge].
    - rewrite Z.mod_pow2_bits_low by lia. reflexivity.
    - rewrite Z.mod_pow2_bits_high by lia.
      rewrite Z.lxor_spec.
      rewrite <- (Z.mod_small a (2 ^ 8)), <- (Z.mod_small b (2 ^ 8)) by (simpl; lia).
      rewrite !Z.mod_pow2_bits_high by lia. reflexivity. }
  rewrite Hx. apply Z.mod_pos_bound. reflexivity.
Qed.

(** ** The lookup table against the bitwise CRC-8 *)

Lemma CRC_LUT_entries : forallb table_entry_ok (seq 0 256) = true.
Proof. vm_compute. reflexivity. Qed.

Lemma CRC_LUT_length : length CRC_LUT = 256%nat.
Proof. reflexivity. Qed.

Lemma CRC_LUT_at_bitwise (i : Z) :
  is_uint8 i -> CRC_LUT_at i = Nat.iter 8 crc8_shift i.
Proof.
  intros Hi. unfold is_uint8 in Hi.
  pose proof CRC_LUT_entries as Hall.
  rewrite forallb_forall in Hall.
  specialize (Hall (Z.to_nat i)).
  unfold table_entry_ok in Hall.
  rewrite Z2Nat.id in Hall by lia.
  apply Z.eqb_eq, Hall, in_seq. lia.
Qed.

Lemma CRC_LUT_at_uint8 (i : Z) : is_uint8 i -> is_uint8 (CRC_LUT_at i).
Proof.
  intros Hi. unfold is_uint8 in Hi.
  assert (Hall : forallb (fun v => (0 <=? v) && (v <? 256)) CRC_LUT = true)
    by (vm_compute; reflexivity).
  rewrite forallb_forall in Hall.
  assert (Hin : In (CRC_LUT_at i) CRC_LUT).
  { unfold CRC_LUT_at. apply nth_In. rewrite CRC_LUT_length. lia. }
  apply Hall in Hin. unfold is_uint8. lia.
Qed.

Lemma crc_update_bitwise (crc byte : Z) :
  is_uint8 crc -> is_uint8 byte -> crc_update crc byte = crc8_byte crc byte.
Proof.
  intros Hc Hb. unfold crc_update, crc8_byte.
  apply CRC_LUT_at_bitwise, lxor_uint8; assumption.
Qed.

Lemma crc_update_uint8 (crc byte : Z) :
  is_uint8 crc -> is_uint8 byte -> is_uint8 (crc_update crc byte).
Proof.
  intros Hc Hb. apply CRC_LUT_at_uint8, lxor_uint8; assumption.
Qed.

(** C3. For every pair of payload bytes, the check value that [ReadData]
    computes through the table (0xFF at the start of the word, then
    [CRC_LUT[crc ^ b]] for [b0] and for [b1]) is the CRC-8 of [b0, b1]
    computed bit by bit with polynomial 0x31, initial value 0xFF, no
    reflection and no final XOR. *)
Theorem crc_table_matches_bitwise (b0 b1 : Z) :
  is_uint8 b0 -> is_uint8 b1 ->
  crc_word b0 b1 = crc8_bitwise [b0; b1].
Proof.
  intros H0 H1. unfold crc_word, crc8_bitwise. simpl fold_left.
  assert (HFF : is_uint8 0xFF) by (unfold is_uint8; lia).
  rewrite (crc_update_bitwise (crc_update 0xFF b0) b1).
  - rewrite (crc_update_bitwise 0xFF b0) by assumption. reflexivity.
  - apply crc_update_uint8; assumption.
  - assumption.
Qed.

Lemma crc_table_matches_bitwise_witness :
  is_uint8 0xBE /\ is_uint8 0xEF /\ crc_word 0xBE 0xEF = crc8_bitwise [0xBE; 0xEF].
Proof.
  assert (H0 : is_uint8 0xBE) by (unfold is_uint8; lia).
  assert (H1 : is_uint8 0xEF) by (unfold is_uint8; lia).
  split; [exact H0 | split; [exact H1 | exact (crc_table_matches_bitwise 0xBE 0xEF H0 H1)]].
Defined.

(** ** Running a sequence *)

Lemma bind_run {A B} (m : M A) (k : A -> M B) (σ σ' : World) (a : A) :
  m σ = Some (a, σ') -> bind m k σ = k a σ'.
Proof. intros H. unfold bind. rewrite H. reflexivity. Qed.

(** ** The bus *)

Lemma drained_unfold (k : nat) (w : Wire.TwoWire) :
  Wire.drained k w =
  Wire.mkTwoWire (Wire.calls w ++ repeat Wire.CallRead k) (skipn k (Wire.rxBuffer w))
                 (Wire.writeResults w) (Wire.endResults w) (Wire.deviceData w).
Proof.
  revert w. induction k as [| k IH]; intros w.
  - destruct w. unfold Wire.drained. simpl. rewrite app_nil_r. reflexivity.
  - unfold Wire.drained. rewrite Nat.iter_succ_r.
    fold (Wire.drained k (snd (Wire.read w))). rewrite IH.
    destruct w as [c rx wr er dd]. simpl.
    rewrite <- app_assoc. simpl. f_equal.
    destruct rx; simpl; [ rewrite skipn_nil | ]; reflexivity.
Qed.

Lemma drained_succ (k : nat) (w : Wire.TwoWire) :
  Wire.drained k (snd (Wire.read w)) = Wire.drained (S k) w.
Proof. unfold Wire.drained. rewrite Nat.iter_succ_r. reflexivity. Qed.

Lemma delivered_length (q : Z) (w : Wire.TwoWire) :
  0 <= q -> Z.of_nat (length (Wire.delivered q w)) <= q.
Proof.
  intros Hq. unfold Wire.delivered.
  rewrite length_map.
  pose proof (firstn_le_length (Z.to_nat q) (hd [] (Wire.deviceData w))). lia.
Qed.

Lemma delivered_uint8 (q : Z) (w : Wire.TwoWire) :
  Forall is_uint8 (Wire.delivered q w).
Proof.
  unfold Wire.delivered.
  induction (firstn (Z.to_nat q) (hd [] (Wire.deviceData w))) as [| x l IH]; simpl.
  - constructor.
  - constructor; [apply to_uint8_range | exact IH].
Qed.

(** ** The scratch buffer *)

Lemma valid_length (σ : World) : valid σ -> length (buffer (self σ)) = 13%nat.
Proof. intros [H _]. exact H. Qed.

Lemma valid_set_buffer (buf : list Z) (σ : World) :
  length buf = 13%nat -> Forall is_uint8 buf -> valid (set_buffer buf σ).
Proof. intros Hl Hf. split; assumption. Qed.

Lemma valid_set_bus (w : Wire.TwoWire) (σ : World) : valid σ -> valid (set_bus w σ).
Proof. intros H. exact H. Qed.

Lemma valid_set_mem (m : Memory) (σ : World) : valid σ -> valid (set_mem m σ).
Proof. intros H. exact H. Qed.

(** The clearing loop writes 0 at the indices 12 down to 1. *)
Lemma clear_buffer_run (σ : World) :
  length (buffer (self σ)) = 13%nat ->
  clear_buffer 12 σ =
    Some (tt, set_buffer (hd 0 (buffer (self σ)) :: repeat 0 12) σ).
Proof.
  destruct σ as [[n a c buf] w m]. simpl. intros Hlen.
  do 14 (destruct buf as [| ? buf]; try discriminate Hlen).
  reflexivity.
Qed.

(** ** The reading loop *)

Lemma read_bytes_run (read : nat) : forall next crc success σ,
  Z.of_nat next + Z.of_nat read - (Z.of_nat read + 2) / 3 <= 12 ->
  valid σ ->
  exists buf,
    read_bytes read next crc success σ =
      Some (crc_scan read crc success (Wire.rxBuffer (bus σ)),
            set_bus (Wire.drained read (bus σ)) (set_buffer buf σ)) /\
    length buf = 13%nat /\ Forall is_uint8 buf.
Proof.
  induction read as [| read IH]; intros next crc success σ Hbound [Hlen Hbytes].
  - exists (buffer (self σ)). split; [| split; assumption].
    destruct σ as [[n a c buf] w m]. reflexivity.
  - assert (Hnext : (next < 13)%nat) by lia_div.
    set (v := to_uint8 (hd (-1) (Wire.rxBuffer (bus σ)))).
    set (σ1 := set_buffer (<[next := v]> (buffer (self σ))) (set_bus (snd (Wire.read (bus σ))) σ)).
    assert (Hv1 : valid σ1).
    { split; simpl.
      - rewrite length_insert. exact Hlen.
      - apply Forall_insert; [exact Hbytes | apply to_uint8_range]. }
    assert (Hstep : read_bytes (S read) next crc success σ =
              if Z.of_nat (S read) mod 3 =? 1
              then read_bytes read next 0xFF (success && (crc =? v)) σ1
              else read_bytes read (S next) (crc_update crc v) success σ1).
    { cbn [read_bytes]. unfold bind at 1. unfold Wire_read, on_bus.
      unfold bind at 1. unfold poke. cbn [self bus set_bus fst snd Wire.read].
      unfold buffer_size in Hlen. rewrite Hlen.
      destruct (Nat.ltb_spec next 13) as [_ | Hge]; [| lia].
      unfold bind at 1. unfold peek. cbn [self set_buffer buffer].
      rewrite list_lookup_insert_eq by (rewrite Hlen; exact Hnext).
      destruct (Z.of_nat (S read) mod 3 =? 1); reflexivity. }
    rewrite Hstep. cbn [crc_scan]. fold v.
    destruct (Z.of_nat (S read) mod 3 =? 1) eqn:Hmod.
    + apply Z.eqb_eq in Hmod.
      destruct (IH next 0xFF (success && (crc =? v)) σ1) as [buf [Hrun [Hl Hf]]];
        [ lia_div | exact Hv1 | ].
      exists buf. split; [| split; assumption].
      rewrite Hrun. subst σ1. cbn [bus set_buffer set_bus self mem Wire.read snd Wire.rxBuffer].
      rewrite <- drained_succ. reflexivity.
    + apply Z.eqb_neq in Hmod.
      destruct (IH (S next) (crc_update crc v) success σ1) as [buf [Hrun [Hl Hf]]];
        [ lia_div | exact Hv1 | ].
      exists buf. split; [| split; assumption].
      rewrite Hrun. subst σ1. cbn [bus set_buffer set_bus self mem Wire.read snd Wire.rxBuffer].
      rewrite <- drained_succ. reflexivity.
Qed.

Lemma crc_scan_false (read : nat) : forall crc rx,
  crc_scan read crc false rx = false.
Proof.
  induction read as [| read IH]; intros crc rx; [reflexivity |].
  cbn [crc_scan]. destruct (Z.of_nat (S read) mod 3 =? 1); apply IH.
Qed.




(** ** ReadData *)

(** [ReadData] on a bus that delivers few enough bytes for the buffer:
    its result, and the bus afterwards. *)
Lemma ReadData_run (words : Z) (σ : World) :
  valid σ ->
  let q := to_uint8 (words * 3) in
  let d := Wire.delivered q (bus σ) in
  Z.of_nat (length d) - (Z.of_nat (length d) + 2) / 3 <= 12 ->
  exists buf,
    ReadData words σ =
      Some (crc_scan (length d) 0xFF (Z.of_nat (length d) =? 3 * words) d,
            set_bus (Wire.mkTwoWire
                       (Wire.calls (bus σ) ++
                        Wire.CallRequest (addr (self σ)) q :: repeat Wire.CallRead (length d))
                       [] (Wire.writeResults (bus σ)) (Wire.endResults (bus σ))
                       (tl (Wire.deviceData (bus σ))))
                    (set_buffer buf σ)) /\
    length buf = 13%nat /\ Forall is_uint8 buf.
Proof.
  intros Hvalid q d Hfit.
  pose proof (valid_length σ Hvalid) as Hlen.
  destruct Hvalid as [_ Hbytes].
  set (σc := set_buffer (hd 0 (buffer (self σ)) :: repeat 0 12) σ).
  set (σr := set_bus (snd (Wire.requestFrom (addr (self σ)) q (bus σ))) σc).
  assert (Hvr : valid σr).
  { split; [reflexivity |]. simpl.
    constructor.
    - destruct (buffer (self σ)) as [| x l]; [discriminate Hlen |].
      inversion Hbytes; assumption.
    - repeat constructor; unfold is_uint8; lia. }
  destruct (read_bytes_run (length d) 0 0xFF (Z.of_nat (length d) =? 3 * words) σr)
    as [buf [Hrun [Hl Hf]]]; [ simpl; lia | exact Hvr | ].
  exists buf. split; [| split; assumption].
  unfold ReadData. unfold bind at 1. rewrite (clear_buffer_run σ Hlen).
  unfold bind at 1. unfold this. unfold bind at 1.
  unfold Wire_requestFrom, on_bus.
  cbn [self bus set_buffer addr fst snd Wire.requestFrom].
  fold q. fold d. rewrite Nat2Z.id.
  replace (if negb (Z.of_nat (length d) =? 3 * words) then false else true)
    with (Z.of_nat (length d) =? 3 * words)
    by (destruct (Z.of_nat (length d) =? 3 * words); reflexivity).
  match goal with |- _ = ?rhs =>
    change (read_bytes (length d) 0 255 (Z.of_nat (length d) =? 3 * words) σr = rhs) end.
  rewrite Hrun. rewrite drained_unfold.
  subst σr σc. cbn [bus set_bus set_buffer self mem snd Wire.requestFrom
                    Wire.calls Wire.rxBuffer Wire.writeResults Wire.endResults
                    Wire.deviceData number addr comp].
  fold q. fold d. rewrite skipn_all. rewrite <- app_assoc. reflexivity.
Qed.

Lemma request_quantity (n : Z) : 0 <= n <= 85 -> to_uint8 (n * 3) = 3 * n.
Proof. intros Hn. unfold to_uint8. rewrite Z.mod_small; lia. Qed.

Lemma world_with_valid (comp0 : Z) (writes ends : list Z) (data : list (list Z)) :
  valid (world_with comp0 writes ends data).
Proof. split; [reflexivity |]. simpl. repeat constructor; unfold is_uint8; lia. Qed.

(** ** The reading loop without a bound

    The result of [ReadData] and what it does on the bus depend on the
    bytes received only, not on where they are stored: the loop runs to its
    end for every number of bytes. *)

Lemma poke_then_peek (i : nat) (v : Z) (σ : World) :
  exists buf,
    poke i v σ = Some (tt, set_buffer buf σ) /\
    peek i (set_buffer buf σ) = Some (v, set_buffer buf σ) /\
    (length (buffer (self σ)) <= length buf)%nat /\ (i < length buf)%nat.
Proof.
  unfold poke, peek.
  destruct (Nat.ltb_spec i (length (buffer (self σ)))) as [Hin | Hout].
  - exists (<[i := v]> (buffer (self σ))). split; [reflexivity |].
    cbn [self set_buffer buffer].
    rewrite list_lookup_insert_eq by exact Hin.
    rewrite length_insert. split; [reflexivity | split; [lia | exact Hin]].
  - exists (buffer (self σ) ++ repeat 0 (i - length (buffer (self σ))) ++ [v]).
    split; [reflexivity |].
    cbn [self set_buffer buffer].
    rewrite !length_app, repeat_length. cbn [length].
    rewrite lookup_app_r by lia.
    rewrite lookup_app_r by (rewrite repeat_length; lia).
    rewrite repeat_length.
    replace (i - length (buffer (self σ)) - (i - length (buffer (self σ))))%nat
      with 0%nat by lia.
    split; [reflexivity | split; lia].
Qed.

Lemma clear_buffer_any (next : nat) : forall σ,
  exists buf, clear_buffer next σ = Some (tt, set_buffer buf σ).
Proof.
  induction next as [| below IH]; intros σ.
  - exists (buffer (self σ)). destruct σ as [[n a c buf] w m]. reflexivity.
  - destruct (poke_then_peek (S below) 0 σ) as [buf1 [Hpoke _]].
    destruct (IH (set_buffer buf1 σ)) as [buf Hrun].
    exists buf. cbn [clear_buffer]. rewrite (bind_run _ _ _ _ _ Hpoke).
    exact Hrun.
Qed.

Lemma read_bytes_unfold (read next : nat) (crc : Z) (success : bool) (σ : World) :
  let v := to_uint8 (hd (-1) (Wire.rxBuffer (bus σ))) in
  exists buf,
    let σ1 := set_buffer buf (set_bus (snd (Wire.read (bus σ))) σ) in
    (length (buffer (self σ)) <= length buf)%nat /\ (next < length buf)%nat /\
    read_bytes (S read) next crc success σ =
      if Z.of_nat (S read) mod 3 =? 1
      then read_bytes read next 0xFF (success && (crc =? v)) σ1
      else read_bytes read (S next) (crc_update crc v) success σ1.
Proof.
  intros v.
  set (σr := set_bus (snd (Wire.read (bus σ))) σ).
  destruct (poke_then_peek next v σr) as [buf1 [Hpoke [Hpeek [Hlen Hnext]]]].
  exists buf1. cbv zeta. fold σr.
  split; [exact Hlen | split; [exact Hnext |]].
  cbn [read_bytes]. unfold bind at 1. unfold Wire_read, on_bus.
  cbn [fst snd Wire.read]. fold σr. fold v.
  rewrite (bind_run _ _ _ _ _ Hpoke). rewrite (bind_run _ _ _ _ _ Hpeek).
  destruct (Z.of_nat (S read) mod 3 =? 1); reflexivity.
Qed.

Lemma read_bytes_any (read : nat) : forall next crc success σ,
  exists buf,
    read_bytes read next crc success σ =
      Some (crc_scan read crc success (Wire.rxBuffer (bus σ)),
            set_bus (Wire.drained read (bus σ)) (set_buffer buf σ)).
Proof.
  induction read as [| read IH]; intros next crc success σ.
  - exists (buffer (self σ)). destruct σ as [[n a c buf] w m]. reflexivity.
  - destruct (read_bytes_unfold read next crc success σ) as [buf1 [_ [_ Hstep]]].
    cbv zeta in Hstep. rewrite Hstep. cbn [crc_scan].
    set (v := to_uint8 (hd (-1) (Wire.rxBuffer (bus σ)))).
    set (σ1 := set_buffer buf1 (set_bus (snd (Wire.read (bus σ))) σ)).
    destruct (Z.of_nat (S read) mod 3 =? 1).
    + destruct (IH next 0xFF (success && (crc =? v)) σ1) as [buf Hrun].
      exists buf. rewrite Hrun. subst σ1.
      cbn [bus set_buffer set_bus self mem Wire.read snd Wire.rxBuffer].
      rewrite <- drained_succ. reflexivity.
    + destruct (IH (S next) (crc_update crc v) success σ1) as [buf Hrun].
      exists buf. rewrite Hrun. subst σ1.
      cbn [bus set_buffer set_bus self mem Wire.read snd Wire.rxBuffer].
      rewrite <- drained_succ. reflexivity.
Qed.

(** [ReadData] up to its reading loop: the buffer cleared, the request
    made. *)
Lemma ReadData_loop (words : Z) (σ : World) :
  let q := to_uint8 (words * 3) in
  let d := Wire.delivered q (bus σ) in
  exists bufc,
    ReadData words σ =
      read_bytes (length d) 0 0xFF (Z.of_nat (length d) =? 3 * words)
        (set_bus (snd (Wire.requestFrom (addr (self σ)) q (bus σ)))
                 (set_buffer bufc σ)).
Proof.
  intros q d.
  destruct (clear_buffer_any 12 σ) as [bufc Hclear].
  exists bufc.
  unfold ReadData. rewrite (bind_run _ _ _ _ _ Hclear).
  unfold bind at 1. unfold this. unfold bind at 1.
  unfold Wire_requestFrom, on_bus.
  cbn [self bus set_buffer addr fst snd Wire.requestFrom].
  fold q. fold d. rewrite Nat2Z.id.
  replace (if negb (Z.of_nat (length d) =? 3 * words) then false else true)
    with (Z.of_nat (length d) =? 3 * words)
    by (destruct (Z.of_nat (length d) =? 3 * words); reflexivity).
  reflexivity.
Qed.

Lemma ReadData_any (words : Z) (σ : World) :
  let q := to_uint8 (words * 3) in
  let d := Wire.delivered q (bus σ) in
  exists buf,
    ReadData words σ =
      Some (crc_scan (length d) 0xFF (Z.of_nat (length d) =? 3 * words) d,
            set_bus (Wire.mkTwoWire
                       (Wire.calls (bus σ) ++
                        Wire.CallRequest (addr (self σ)) q :: repeat Wire.CallRead (length d))
                       [] (Wire.writeResults (bus σ)) (Wire.endResults (bus σ))
                       (tl (Wire.deviceData (bus σ))))
                    (set_buffer buf σ)).
Proof.
  intros q d.
  destruct (ReadData_loop words σ) as [bufc Hloop]. fold q d in Hloop.
  set (σr := set_bus (snd (Wire.requestFrom (addr (self σ)) q (bus σ)))
                     (set_buffer bufc σ)) in *.
  destruct (read_bytes_any (length d) 0 0xFF (Z.of_nat (length d) =? 3 * words) σr)
    as [buf Hrun].
  exists buf. rewrite Hloop, Hrun. rewrite drained_unfold.
  subst σr. cbn [bus set_bus set_buffer self mem snd Wire.requestFrom
                 Wire.calls Wire.rxBuffer Wire.writeResults Wire.endResults
                 Wire.deviceData number addr comp].
  fold q. fold d. rewrite skipn_all. rewrite <- app_assoc. reflexivity.
Qed.



(** C2. For every word count n, if the bus delivers k < 3 n bytes,
    [ReadData n] returns failure, and by then it has called [read] k times,
    once for each byte received: the receive queue is empty. *)
Theorem ReadData_short_read_drains (n : Z) (σ : World) :
  0 <= n <= 255 ->
  let q := to_uint8 (n * 3) in
  let d := Wire.delivered q (bus σ) in
  Z.of_nat (length d) < 3 * n ->
  exists σ',
    ReadData n σ = Some (false, σ') /\
    Wire.rxBuffer (bus σ') = [] /\
    Wire.calls (bus σ') =
      Wire.calls (bus σ) ++
      Wire.CallRequest (addr (self σ)) q :: repeat Wire.CallRead (length d).
Proof.
  intros Hn q d Hshort.
  destruct (ReadData_any n σ) as [buf Hrun]. fold q d in Hrun.
  destruct (Z.eqb_spec (Z.of_nat (length d)) (3 * n)) as [Heq | Hne]; [lia |].
  rewrite crc_scan_false in Hrun.
  eexists. split; [exact Hrun |]. split; reflexivity.
Qed.

Lemma ReadData_short_read_drains_witness :
  let σ := world_twenty_bytes in
  0 <= 7 <= 255 /\
  Z.of_nat (length (Wire.delivered (to_uint8 (7 * 3)) (bus σ))) = 20 /\
  exists σ',
    ReadData 7 σ = Some (false, σ') /\
    Wire.rxBuffer (bus σ') = [] /\
    Wire.calls (bus σ') =
      Wire.calls (bus σ) ++
      Wire.CallRequest (addr (self σ)) 21 :: repeat Wire.CallRead 20.
Proof.
  cbv zeta.
  split; [lia | split; [reflexivity |]].
  apply (ReadData_short_read_drains 7 world_twenty_bytes ltac:(lia)).
  vm_compute. reflexivity.
Defined.

(** ** WriteCommand and the commands built on it *)

Lemma WriteCommand_run (cmd : Command) (σ : World) :
  WriteCommand cmd σ =
    Some ((hd 4 (Wire.endResults (bus σ)) =? 0) && (hd 0 (Wire.writeResults (bus σ)) =? 2),
          set_bus (Wire.mkTwoWire
                     (Wire.calls (bus σ) ++
                      [Wire.CallBegin (addr (self σ));
                       Wire.CallWrite [fst cmd; snd cmd]; Wire.CallEnd])
                     (Wire.rxBuffer (bus σ))
                     (tl (Wire.writeResults (bus σ)))
                     (tl (Wire.endResults (bus σ)))
                     (Wire.deviceData (bus σ)))
                  σ).
Proof.
  destruct σ as [s w m]. unfold WriteCommand, bind, this, ret,
    Wire_beginTransmission, Wire_write, Wire_endTransmission, on_bus, set_bus.
  simpl. rewrite <- !app_assoc. reflexivity.
Qed.

Lemma WriteCommand_sends (cmd : Command) (σ : World) :
  sends (WriteCommand cmd) σ (addr (self σ)) [fst cmd; snd cmd].
Proof.
  unfold sends. rewrite WriteCommand_run. eexists _, _. split; reflexivity.
Qed.

(** C5. For every two-byte command, [WriteCommand] makes one write
    transaction to the address of the driver and returns success if and
    only if [write] took exactly 2 bytes and [endTransmission] returned
    status 0; with any other status (a NACK) it returns failure, also when
    the 2 bytes were taken. *)
Theorem WriteCommand_success_iff (cmd : Command) (σ : World) :
  let w1 := Wire.beginTransmission (addr (self σ)) (bus σ) in
  let written := fst (Wire.write [fst cmd; snd cmd] w1) in
  let w2 := snd (Wire.write [fst cmd; snd cmd] w1) in
  let status := fst (Wire.endTransmission w2) in
  let w3 := snd (Wire.endTransmission w2) in
  exists ok,
    WriteCommand cmd σ = Some (ok, set_bus w3 σ) /\
    (ok = true <-> written = 2 /\ status = 0) /\
    (status <> 0 -> ok = false).
Proof.
  cbv zeta. rewrite WriteCommand_run.
  destruct σ as [s [c rx wr er dd] m]. simpl.
  eexists. split; [| split].
  - unfold set_bus. simpl. rewrite <- !app_assoc. reflexivity.
  - rewrite andb_true_iff, !Z.eqb_eq. tauto.
  - intros Hnack. apply andb_false_iff. left. apply Z.eqb_neq. exact Hnack.
Qed.

(** C4. In both compensation modes and for both values of the flag,
    [StartContinuous] and [TriggerMeasurement] write to the address of the
    driver exactly the two bytes of the command table. *)
Theorem command_selection (num a : Z) (buf : list Z) (w : Wire.TwoWire) (m : Memory) :
  let mass := mkWorld (mkSDP3x num a MassFlow buf) w m in
  let diff := mkWorld (mkSDP3x num a DiffPressure buf) w m in
  (sends (StartContinuous true) mass a [0x36; 0x03] /\
   sends (StartContinuous false) mass a [0x36; 0x08] /\
   sends (StartContinuous true) diff a [0x36; 0x15] /\
   sends (StartContinuous false) diff a [0x36; 0x1E]) /\
  (sends (TriggerMeasurement false) mass a [0x36; 0x24] /\
   sends (TriggerMeasurement true) mass a [0x37; 0x26] /\
   sends (TriggerMeasurement false) diff a [0x36; 0x2F] /\
   sends (TriggerMeasurement true) diff a [0x37; 0x2D]).
Proof.
  cbv zeta. repeat split.
  all: unfold sends, StartContinuous, TriggerMeasurement, bind, this;
       cbn -[WriteCommand].
  all: rewrite WriteCommand_run; eexists _, _; split; reflexivity.
Qed.

(** C9. [Reset] makes one write transaction, addressed to 0x00 (the first
    byte of the soft reset command, the general call address) whatever the
    address of the driver is, carrying the byte 0x06; it returns success if
    and only if [write] took that one byte and [endTransmission] returned
    status 0. *)
Theorem Reset_general_call (σ : World) :
  let written := hd 0 (Wire.writeResults (bus σ)) in
  let status := hd 4 (Wire.endResults (bus σ)) in
  exists ok σ',
    Reset σ = Some (ok, σ') /\
    Wire.calls (bus σ') =
      Wire.calls (bus σ) ++ [Wire.CallBegin 0x00; Wire.CallWrite [0x06]; Wire.CallEnd] /\
    self σ' = self σ /\
    (ok = true <-> written = 1 /\ status = 0).
Proof.
  cbv zeta. destruct σ as [s [c rx wr er dd] m].
  unfold Reset, bind, ret, Wire_beginTransmission, Wire_write,
    Wire_endTransmission, on_bus, set_bus. simpl.
  destruct (Z.eqb_spec (hd 4 er) 0) as [Hs | Hs]; simpl.
  - eexists _, _. split; [reflexivity |]. simpl.
    split; [rewrite <- !app_assoc; reflexivity |].
    split; [reflexivity |].
    rewrite Z.eqb_eq. tauto.
  - eexists _, _. split; [reflexivity |]. simpl.
    split; [rewrite <- !app_assoc; reflexivity |].
    split; [reflexivity |].
    split; [discriminate | intros [_ H]; contradiction].
Qed.

(** C10. The clearing loop with which [ReadData] begins writes 0 at the
    indices 1 to 12 of the buffer and leaves index 0 as it was; so when the
    bus then delivers no byte, [ReadData] returns with byte 0 of the buffer
    still holding its old value. *)
Theorem ReadData_clear_spares_byte_0 (n : Z) (σ : World) :
  valid σ ->
  (exists σc,
     clear_buffer 12 σ = Some (tt, σc) /\
     buffer (self σc) !! 0%nat = buffer (self σ) !! 0%nat /\
     forall i : nat, (1 <= i <= 12)%nat -> buffer (self σc) !! i = Some 0) /\
  (Wire.delivered (to_uint8 (n * 3)) (bus σ) = [] ->
   exists ok σ',
     ReadData n σ = Some (ok, σ') /\
     buffer (self σ') !! 0%nat = buffer (self σ) !! 0%nat /\
     forall i : nat, (1 <= i <= 12)%nat -> buffer (self σ') !! i = Some 0).
Proof.
  intros Hvalid. pose proof (valid_length σ Hvalid) as Hlen.
  assert (Hhead : (hd 0 (buffer (self σ)) :: repeat 0 12) !! 0%nat = buffer (self σ) !! 0%nat).
  { destruct (buffer (self σ)); [discriminate Hlen | reflexivity]. }
  assert (Hzero : forall i : nat, (1 <= i <= 12)%nat ->
            (hd 0 (buffer (self σ)) :: repeat 0 12) !! i = Some 0).
  { intros i Hi. do 13 (destruct i as [| i]; [first [lia | reflexivity] |]). lia. }
  split.
  - eexists. split; [apply clear_buffer_run; exact Hlen |]. split; assumption.
  - intros Hnone.
    unfold ReadData. unfold bind at 1. rewrite (clear_buffer_run σ Hlen).
    unfold bind, this, Wire_requestFrom, on_bus.
    cbn [self bus set_buffer addr fst snd Wire.requestFrom].
    rewrite Hnone. cbn [length Z.of_nat Z.to_nat read_bytes ret].
    eexists _, _. split; [reflexivity |]. split; assumption.
Qed.

Lemma ReadData_clear_spares_byte_0_witness :
  let σ := mkWorld (mkSDP3x 0 Address1 MassFlow (0xAB :: repeat 0x55 12))
                   (Wire.mkTwoWire [] [] [] [] []) (fun _ => 0) in
  valid σ /\
  Wire.delivered (to_uint8 (1 * 3)) (bus σ) = [] /\
  (exists σc,
     clear_buffer 12 σ = Some (tt, σc) /\
     buffer (self σc) !! 0%nat = Some 0xAB /\
     forall i : nat, (1 <= i <= 12)%nat -> buffer (self σc) !! i = Some 0) /\
  (exists ok σ',
     ReadData 1 σ = Some (ok, σ') /\
     buffer (self σ') !! 0%nat = Some 0xAB /\
     forall i : nat, (1 <= i <= 12)%nat -> buffer (self σ') !! i = Some 0).
Proof.
  cbv zeta.
  assert (Hv : valid (mkWorld (mkSDP3x 0 Address1 MassFlow (0xAB :: repeat 0x55 12))
                              (Wire.mkTwoWire [] [] [] [] []) (fun _ => 0))).
  { split; [reflexivity |]. simpl. repeat constructor; unfold is_uint8; lia. }
  split; [exact Hv |]. split; [reflexivity |].
  destruct (ReadData_clear_spares_byte_0 1 _ Hv) as [Hclear Hread].
  split; [exact Hclear |]. exact (Hread eq_refl).
Defined.

(** ** Shifting buffer bytes into an integer object *)

Lemma lor_low_byte (x b : Z) : x mod 256 = 0 -> is_uint8 b -> Z.lor x b = x + b.
Proof.
  intros Hx Hb. unfold is_uint8 in Hb. symmetry. apply Z.add_nocarry_lor.
  apply Z.bits_inj'. intros i Hi. rewrite Z.land_spec, Z.bits_0.
  destruct (Z.lt_ge_cases i 8) as [Hlt | Hge].
  - rewrite <- (Z.mod_pow2_bits_low x 8 i) by lia.
    change (2 ^ 8) with 256. rewrite Hx, Z.bits_0. reflexivity.
  - rewrite <- (Z.mod_small b (2 ^ 8)) by (simpl; lia).
    rewrite Z.mod_pow2_bits_high by lia. apply andb_false_r.
Qed.

Lemma buffer_byte_lookup (σ : World) (i : nat) :
  valid σ -> (i < 13)%nat ->
  buffer (self σ) !! i = Some (buffer_byte σ i) /\ is_uint8 (buffer_byte σ i).
Proof.
  intros [Hlen Hbytes] Hi. unfold buffer_byte.
  assert (Hlook : buffer (self σ) !! i = Some (nth i (buffer (self σ)) 0)).
  { destruct (nth_lookup_or_length (buffer (self σ)) i 0) as [H | H]; [exact H |].
    unfold buffer_size in Hlen. lia. }
  split; [exact Hlook |].
  exact (Forall_lookup_1 _ _ _ _ Hbytes Hlook).
Qed.

Section ShiftIn.

(** An integer type of at least 8 bits: [wrap] reduces to it modulo [modulus]. *)
Variable wrap : Z -> Z.
Variable modulus : Z.
Hypothesis modulus_pos : 0 < modulus.
Hypothesis modulus_bytes : (256 | modulus).
Hypothesis wrap_congruent : forall x y, x mod modulus = y mod modulus -> wrap x = wrap y.
Hypothesis wrap_residue : forall x, wrap x mod modulus = x mod modulus.

Lemma shifted_low_byte (v : Z) : wrap (Z.shiftl v 8) mod 256 = 0.
Proof.
  rewrite <- (Z.mod_mod_divide _ modulus 256) by exact modulus_bytes.
  rewrite wrap_residue.
  rewrite Z.mod_mod_divide by exact modulus_bytes.
  rewrite Z.shiftl_mul_pow2 by lia. apply Z.mod_mul. discriminate.
Qed.

Lemma shift_in_value (v b : Z) :
  is_uint8 b -> wrap (Z.lor (wrap (Z.shiftl v 8)) b) = wrap (v * 256 + b).
Proof.
  intros Hb. rewrite lor_low_byte by (apply shifted_low_byte || exact Hb).
  apply wrap_congruent.
  rewrite Z.add_mod by lia. rewrite wrap_residue.
  rewrite Z.shiftl_mul_pow2 by lia.
  rewrite <- Z.add_mod by lia. reflexivity.
Qed.

Lemma wrap_shift_in (x b : Z) : wrap (wrap x * 256 + b) = wrap (x * 256 + b).
Proof.
  apply wrap_congruent.
  rewrite Z.add_mod, Z.mul_mod by lia. rewrite wrap_residue.
  rewrite <- Z.mul_mod, <- Z.add_mod by lia. reflexivity.
Qed.

Lemma shift_in_run (p : N) (i : nat) (σ : World) :
  valid σ -> (i < 13)%nat ->
  exists σ',
    shift_in wrap p i σ = Some (tt, σ') /\
    stored_at p (wrap (mem σ p * 256 + buffer_byte σ i)) σ σ'.
Proof.
  intros Hvalid Hi.
  destruct (buffer_byte_lookup σ i Hvalid Hi) as [Hlook Hbyte].
  unfold shift_in, bind, load, store, peek, set_mem.
  cbn [self bus mem]. rewrite Hlook. cbn [mem].
  rewrite N.eqb_refl.
  eexists. split; [reflexivity |].
  repeat split; cbn [self bus mem].
  - rewrite N.eqb_refl. apply shift_in_value. exact Hbyte.
  - intros q Hq. apply N.eqb_neq in Hq. rewrite Hq. reflexivity.
Qed.

Lemma stored_at_valid (p : N) (v : Z) (σ σ' : World) :
  stored_at p v σ σ' -> valid σ -> valid σ'.
Proof. intros [Hs _] [Hl Hb]. split; rewrite Hs; assumption. Qed.

Lemma stored_at_byte (p : N) (v : Z) (σ σ' : World) (i : nat) :
  stored_at p v σ σ' -> buffer_byte σ' i = buffer_byte σ i.
Proof. intros [Hs _]. unfold buffer_byte. rewrite Hs. reflexivity. Qed.

Lemma stored_at_twice (p : N) (v v' : Z) (σ σ1 σ2 : World) :
  stored_at p v σ σ1 -> stored_at p v' σ1 σ2 -> stored_at p v' σ σ2.
Proof.
  intros [Hs [Hb [_ Hf]]] [Hs' [Hb' [Hv' Hf']]].
  repeat split; try congruence.
  intros q Hq. rewrite Hf', Hf by exact Hq. reflexivity.
Qed.

(** The loop that shifts in [left] bytes from index [i] on. *)
Lemma shift_in_bytes_run (p : N) (left : nat) : forall (i : nat) (σ : World),
  valid σ -> (i + left <= 13)%nat -> (0 < left)%nat ->
  exists σ',
    shift_in_bytes wrap p i left σ = Some (tt, σ') /\
    stored_at p
      (wrap (fold_left (fun acc b => acc * 256 + b)
                       (map (buffer_byte σ) (seq i left)) (mem σ p)))
      σ σ'.
Proof.
  induction left as [| left IH]; intros i σ Hvalid Hfit Hpos; [lia |].
  destruct (shift_in_run p i σ Hvalid ltac:(lia)) as [σ1 [Hrun1 Hst1]].
  cbn [shift_in_bytes]. unfold bind at 1. rewrite Hrun1.
  destruct left as [| left].
  - cbn [shift_in_bytes ret seq map fold_left].
    eexists. split; [reflexivity | exact Hst1].
  - destruct (IH (S i) σ1 (stored_at_valid _ _ _ _ Hst1 Hvalid) ltac:(lia) ltac:(lia))
      as [σ2 [Hrun2 Hst2]].
    rewrite Hrun2. eexists. split; [reflexivity |].
    eapply stored_at_twice; [exact Hst1 |].
    replace (map (buffer_byte σ1) (seq (S i) (S left)))
      with (map (buffer_byte σ) (seq (S i) (S left))) in Hst2
      by (apply map_ext; intros k; symmetry; apply (stored_at_byte _ _ _ _ _ Hst1)).
    destruct Hst1 as [_ [_ [Hv1 _]]]. rewrite Hv1 in Hst2.
    set (bs := map (buffer_byte σ) (seq (S i) (S left))) in *.
    change (map (buffer_byte σ) (seq i (S (S left)))) with (buffer_byte σ i :: bs).
    cbn [fold_left].
    assert (Hfold : forall l x,
              wrap (fold_left (fun acc b => acc * 256 + b) l (wrap x)) =
              wrap (fold_left (fun acc b => acc * 256 + b) l x)).
    { clear -wrap_congruent wrap_residue modulus_pos.
      intros l. induction l as [| b l IHl]; intros x; cbn [fold_left].
      - apply wrap_congruent. apply wrap_residue.
      - rewrite <- (IHl (wrap x * 256 + b)), <- (IHl (x * 256 + b)).
        rewrite wrap_shift_in. reflexivity. }
    rewrite Hfold in Hst2. exact Hst2.
Qed.

End ShiftIn.

(** The three integer types the driver shifts bytes into. *)

Lemma to_int16_congruent (x y : Z) :
  x mod 2 ^ 16 = y mod 2 ^ 16 -> to_int16 x = to_int16 y.
Proof.
  unfold to_int16. change (2 ^ 16) with 65536. change (2 ^ 15) with 32768.
  intros H. lia_div.
Qed.

Lemma to_int16_residue (x : Z) : to_int16 x mod 2 ^ 16 = x mod 2 ^ 16.
Proof.
  unfold to_int16. change (2 ^ 16) with 65536. change (2 ^ 15) with 32768.
  lia_div.
Qed.

Lemma to_uint32_congruent (x y : Z) :
  x mod 2 ^ 32 = y mod 2 ^ 32 -> to_uint32 x = to_uint32 y.
Proof. intros H. exact H. Qed.

Lemma to_uint32_residue (x : Z) : to_uint32 x mod 2 ^ 32 = x mod 2 ^ 32.
Proof. unfold to_uint32. apply Z.mod_mod. discriminate. Qed.

Lemma to_uint64_congruent (x y : Z) :
  x mod 2 ^ 64 = y mod 2 ^ 64 -> to_uint64 x = to_uint64 y.
Proof. intros H. exact H. Qed.

Lemma to_uint64_residue (x : Z) : to_uint64 x mod 2 ^ 64 = x mod 2 ^ 64.
Proof. unfold to_uint64. apply Z.mod_mod. discriminate. Qed.

Lemma bytes_divide_2_16 : (256 | 2 ^ 16).
Proof. exists (2 ^ 8). reflexivity. Qed.

Lemma bytes_divide_2_32 : (256 | 2 ^ 32).
Proof. exists (2 ^ 24). reflexivity. Qed.

Lemma bytes_divide_2_64 : (256 | 2 ^ 64).
Proof. exists (2 ^ 56). reflexivity. Qed.

(** Two bytes shifted into an [int16_t] leave nothing of its old value. *)
Lemma int16_of_two_bytes (v b0 b1 : Z) :
  to_int16 ((v * 256 + b0) * 256 + b1) = to_int16 (big_endian [b0; b1]).
Proof.
  apply to_int16_congruent. unfold big_endian. cbn [fold_left].
  change (2 ^ 16) with 65536. lia_div.
Qed.

(** Four bytes shifted into a [uint32_t] leave nothing of its old value. *)
Lemma uint32_of_four_bytes (v b0 b1 b2 b3 : Z) :
  is_uint8 b0 -> is_uint8 b1 -> is_uint8 b2 -> is_uint8 b3 ->
  to_uint32 (fold_left (fun acc b => acc * 256 + b) [b0; b1; b2; b3] v) =
  big_endian [b0; b1; b2; b3].
Proof.
  unfold is_uint8, to_uint32, big_endian. intros H0 H1 H2 H3. cbn [fold_left].
  replace ((((v * 256 + b0) * 256 + b1) * 256 + b2) * 256 + b3)
    with ((((0 * 256 + b0) * 256 + b1) * 256 + b2) * 256 + b3 + v * 2 ^ 32)
    by (change (2 ^ 32) with 4294967296; ring).
  rewrite Z.mod_add by discriminate.
  apply Z.mod_small. change (2 ^ 32) with 4294967296. lia.
Qed.

(** Eight bytes shifted into a [uint64_t] leave nothing of its old value. *)
Lemma uint64_of_eight_bytes (v b0 b1 b2 b3 b4 b5 b6 b7 : Z) :
  is_uint8 b0 -> is_uint8 b1 -> is_uint8 b2 -> is_uint8 b3 ->
  is_uint8 b4 -> is_uint8 b5 -> is_uint8 b6 -> is_uint8 b7 ->
  to_uint64 (fold_left (fun acc b => acc * 256 + b) [b0; b1; b2; b3; b4; b5; b6; b7] v) =
  big_endian [b0; b1; b2; b3; b4; b5; b6; b7].
Proof.
  unfold is_uint8, to_uint64, big_endian. intros H0 H1 H2 H3 H4 H5 H6 H7.
  cbn [fold_left].
  replace ((((((((v * 256 + b0) * 256 + b1) * 256 + b2) * 256 + b3) * 256 + b4)
              * 256 + b5) * 256 + b6) * 256 + b7)
    with ((((((((0 * 256 + b0) * 256 + b1) * 256 + b2) * 256 + b3) * 256 + b4)
              * 256 + b5) * 256 + b6) * 256 + b7 + v * 2 ^ 64)
    by (change (2 ^ 64) with 18446744073709551616; ring).
  rewrite Z.mod_add by discriminate.
  apply Z.mod_small. change (2 ^ 64) with 18446744073709551616. lia.
Qed.

(** [*p <<= 8; *p |= buffer[i]; *p <<= 8; *p |= buffer[i + 1];] on an
    [int16_t]. *)
Lemma unpack16_run (p : N) (i : nat) (σ : World) :
  valid σ -> (S i < 13)%nat ->
  exists σ',
    (shift_in to_int16 p i ;; shift_in to_int16 p (S i)) σ = Some (tt, σ') /\
    stored_at p (to_int16 (big_endian [buffer_byte σ i; buffer_byte σ (S i)])) σ σ'.
Proof.
  intros Hvalid Hi.
  destruct (shift_in_run to_int16 (2 ^ 16) eq_refl bytes_divide_2_16 to_int16_congruent
              to_int16_residue p i σ Hvalid ltac:(lia)) as [σ1 [Hrun1 Hst1]].
  destruct (shift_in_run to_int16 (2 ^ 16) eq_refl bytes_divide_2_16 to_int16_congruent
              to_int16_residue p (S i) σ1
              (stored_at_valid _ _ _ _ Hst1 Hvalid) Hi) as [σ2 [Hrun2 Hst2]].
  unfold bind. rewrite Hrun1, Hrun2. eexists. split; [reflexivity |].
  eapply stored_at_twice; [exact Hst1 |].
  rewrite (stored_at_byte _ _ _ _ (S i) Hst1) in Hst2.
  destruct Hst1 as [_ [_ [Hv1 _]]]. rewrite Hv1 in Hst2.
  rewrite (wrap_shift_in to_int16 (2 ^ 16) eq_refl to_int16_congruent to_int16_residue)
    in Hst2.
  rewrite int16_of_two_bytes in Hst2. exact Hst2.
Qed.

(** A guarded block [case ...: if (ptr != NULL) { body }] whose body sets
    the object behind the pointer to [v]. *)
Lemma unpack_block (c : bool) (ptr : Pointer) (body : N -> M unit) (v : Z) (σ : World) :
  valid σ ->
  (forall p, exists σ', body p σ = Some (tt, σ') /\ stored_at p v σ σ') ->
  exists σ',
    when c (if_not_null ptr body) σ = Some (tt, σ') /\
    valid σ' /\ self σ' = self σ /\ bus σ' = bus σ /\
    (c = true -> forall p, ptr = Some p -> mem σ' p = v) /\
    (forall q, c = false \/ ptr <> Some q -> mem σ' q = mem σ q).
Proof.
  intros Hvalid Hbody.
  destruct c; [destruct ptr as [p |] |]; cbn [when if_not_null].
  - destruct (Hbody p) as [σ' [Hrun Hst]].
    exists σ'. split; [exact Hrun |].
    split; [exact (stored_at_valid _ _ _ _ Hst Hvalid) |].
    destruct Hst as [Hs [Hb [Hv Hframe]]].
    split; [exact Hs |]. split; [exact Hb |]. split.
    + intros _ p0 Hp0. assert (p0 = p) by congruence. subst p0. exact Hv.
    + intros q [Hc | Hq]; [discriminate Hc |]. apply Hframe. congruence.
  - exists σ. split; [reflexivity |]. split; [exact Hvalid |].
    split; [reflexivity |]. split; [reflexivity |].
    split; [intros _ p Hp; discriminate Hp | reflexivity].
  - exists σ. split; [reflexivity |]. split; [exact Hvalid |].
    split; [reflexivity |]. split; [reflexivity |].
    split; [intros Hc; discriminate Hc | reflexivity].
Qed.

(** ** GetMeasurement *)

Lemma ReadData_returns (words : Z) (σ : World) :
  0 <= words <= 6 -> valid σ ->
  exists ok σ1, ReadData words σ = Some (ok, σ1) /\ after_ReadData words σ σ1.
Proof.
  intros Hw Hvalid.
  pose proof (ReadData_run words σ Hvalid) as Hrun. cbv zeta in Hrun.
  rewrite (request_quantity words) in Hrun by lia.
  pose proof (delivered_length (3 * words) (bus σ) ltac:(lia)) as Hle.
  destruct Hrun as [buf [Hrun [Hl Hf]]]; [lia_div |].
  eexists _, _. split; [exact Hrun |].
  repeat split; try reflexivity; assumption.
Qed.


(** C6. For every combination of null and non-null pointers,
    [GetMeasurement] reads 3 words if [scale] is not null, else 2 words if
    [temp] is not null, else 1 word (one request for three times as many
    bytes on the bus); when [ReadData] fails it returns failure and writes
    through no pointer; when it succeeds, the object behind each pointer
    that is not null holds the 16-bit value, most significant byte first,
    of the buffer bytes 0-1 ([pressure]), 2-3 ([temp]), 4-5 ([scale]).
    The objects are written in the order scale, temp, pressure, so for two
    pointers to the same object the later one decides. *)
Theorem GetMeasurement_reads_and_unpacks (pressure temp scale : Pointer) (σ : World) :
  valid σ ->
  let words := match scale, temp with
               | Some _, _ => 3
               | None, Some _ => 2
               | None, None => 1
               end in
  exists ok σ1 σ',
    ReadData words σ = Some (ok, σ1) /\
    after_ReadData words σ σ1 /\
    GetMeasurement pressure temp scale σ = Some (ok, σ') /\
    self σ' = self σ1 /\ bus σ' = bus σ1 /\
    (ok = false -> mem σ' = mem σ) /\
    (ok = true ->
       (forall p, pressure = Some p ->
          mem σ' p = to_int16 (big_endian [buffer_byte σ1 0; buffer_byte σ1 1])) /\
       (forall t, temp = Some t -> pressure <> Some t ->
          mem σ' t = to_int16 (big_endian [buffer_byte σ1 2; buffer_byte σ1 3])) /\
       (forall s, scale = Some s -> temp <> Some s -> pressure <> Some s ->
          mem σ' s = to_int16 (big_endian [buffer_byte σ1 4; buffer_byte σ1 5])) /\
       (forall q, pressure <> Some q -> temp <> Some q -> scale <> Some q ->
          mem σ' q = mem σ q)).
Proof.
  intros Hvalid words.
  destruct (ReadData_returns words σ) as [ok [σ1 [Hrun Hafter]]];
    [ subst words; destruct scale, temp; simpl; lia | exact Hvalid | ].
  pose proof Hafter as [Hv1 [Hmem1 _]].
  assert (Hcode : GetMeasurement pressure temp scale σ =
            (ok <- ReadData words ;;
             if negb ok then ret false else
             when (words =? 3)
               (if_not_null scale (fun p => shift_in to_int16 p 4 ;; shift_in to_int16 p 5)) ;;
             when ((words =? 3) || (words =? 2))
               (if_not_null temp (fun p => shift_in to_int16 p 2 ;; shift_in to_int16 p 3)) ;;
             when ((words =? 3) || (words =? 2) || (words =? 1))
               (if_not_null pressure (fun p => shift_in to_int16 p 0 ;; shift_in to_int16 p 1)) ;;
             ret true) σ).
  { subst words. destruct scale, temp; reflexivity. }
  rewrite Hcode. unfold bind at 1. rewrite Hrun.
  destruct ok; cbn [negb].
  - destruct (unpack_block (words =? 3) scale
                (fun p => shift_in to_int16 p 4 ;; shift_in to_int16 p 5) _ σ1 Hv1
                (fun p => unpack16_run p 4 σ1 Hv1 ltac:(lia)))
      as [σa [Hra [Hva [Hsa [Hba [Hwa Hfa]]]]]].
    destruct (unpack_block ((words =? 3) || (words =? 2)) temp
                (fun p => shift_in to_int16 p 2 ;; shift_in to_int16 p 3) _ σa Hva
                (fun p => unpack16_run p 2 σa Hva ltac:(lia)))
      as [σb [Hrb [Hvb [Hsb [Hbb [Hwb Hfb]]]]]].
    destruct (unpack_block ((words =? 3) || (words =? 2) || (words =? 1)) pressure
                (fun p => shift_in to_int16 p 0 ;; shift_in to_int16 p 1) _ σb Hvb
                (fun p => unpack16_run p 0 σb Hvb ltac:(lia)))
      as [σc [Hrc [Hvc [Hsc [Hbc [Hwc Hfc]]]]]].
    rewrite (bind_run _ _ _ _ _ Hra), (bind_run _ _ _ _ _ Hrb), (bind_run _ _ _ _ _ Hrc).
    unfold ret.
    assert (Hbyte_a : forall i, buffer_byte σa i = buffer_byte σ1 i)
      by (intros i; unfold buffer_byte; rewrite Hsa; reflexivity).
    assert (Hbyte_b : forall i, buffer_byte σb i = buffer_byte σ1 i)
      by (intros i; unfold buffer_byte; rewrite Hsb, Hsa; reflexivity).
    exists true, σ1, σc.
    split; [reflexivity |]. split; [exact Hafter |]. split; [reflexivity |].
    split; [congruence |]. split; [congruence |].
    split; [discriminate |]. intros _.
    split; [| split; [| split]].
    + intros p Hp. rewrite (Hwc ltac:(subst words; destruct scale, temp; reflexivity) p Hp).
      rewrite !Hbyte_b. reflexivity.
    + intros t Ht Hpt.
      rewrite (Hfc t (or_intror Hpt)).
      rewrite (Hwb ltac:(subst words; rewrite Ht; destruct scale; reflexivity) t Ht).
      rewrite !Hbyte_a. reflexivity.
    + intros s Hs Hts Hps.
      rewrite (Hfc s (or_intror Hps)), (Hfb s (or_intror Hts)).
      exact (Hwa ltac:(subst words; rewrite Hs; reflexivity) s Hs).
    + intros q Hp Ht Hs.
      rewrite (Hfc q (or_intror Hp)), (Hfb q (or_intror Ht)), (Hfa q (or_intror Hs)).
      rewrite Hmem1. reflexivity.
  - exists false, σ1, σ1.
    split; [reflexivity |]. split; [exact Hafter |]. split; [reflexivity |].
    split; [reflexivity |]. split; [reflexivity |].
    split; [intros _; exact Hmem1 | discriminate].
Qed.

Lemma GetMeasurement_reads_and_unpacks_witness :
  let σ := world_with MassFlow [] []
             [word 0x12 0x34 ++ word 0xFF 0x00 ++ word 0x00 0x3C] in
  valid σ /\
  exists σ',
    GetMeasurement (Some 1%N) (Some 2%N) (Some 3%N) σ = Some (true, σ') /\
    mem σ' 1%N = 0x1234 /\ mem σ' 2%N = -256 /\ mem σ' 3%N = 60.
Proof.
  cbv zeta.
  set (σ := world_with MassFlow [] []
              [word 0x12 0x34 ++ word 0xFF 0x00 ++ word 0x00 0x3C]).
  assert (Hv : valid σ).
  { split; [reflexivity |]. simpl. repeat constructor; unfold is_uint8; lia. }
  split; [exact Hv |].
  destruct (GetMeasurement_reads_and_unpacks (Some 1%N) (Some 2%N) (Some 3%N) σ Hv)
    as [ok [σ1 [σ' [Hread [_ [Hget [_ [_ [_ Hok]]]]]]]]].
  assert (Hrun : exists σx,
            ReadData 3 σ = Some (true, σx) /\
            buffer (self σx) = [0x12; 0x34; 0xFF; 0x00; 0x00; 0x3C; 0x39; 0; 0; 0; 0; 0; 0]).
  { eexists. split; vm_compute; reflexivity. }
  destruct Hrun as [σx [Hrun Hbuf]].
  rewrite Hrun in Hread.
  assert (Hok1 : ok = true) by congruence.
  assert (Hσ1 : σ1 = σx) by congruence.
  subst ok σ1.
  destruct (Hok eq_refl) as [Hp [Ht [Hs _]]].
  exists σ'. split; [exact Hget |].
  unfold buffer_byte in Hp, Ht, Hs. rewrite Hbuf in Hp, Ht, Hs.
  split; [| split].
  - rewrite (Hp 1%N eq_refl). reflexivity.
  - rewrite (Ht 2%N eq_refl ltac:(discriminate)). reflexivity.
  - rewrite (Hs 3%N eq_refl ltac:(discriminate) ltac:(discriminate)). reflexivity.
Defined.

(** ** ReadProductID *)

Lemma unpack32_run (p : N) (σ : World) :
  valid σ ->
  exists σ',
    shift_in_bytes to_uint32 p 0 4 σ = Some (tt, σ') /\
    stored_at p (big_endian [buffer_byte σ 0; buffer_byte σ 1;
                             buffer_byte σ 2; buffer_byte σ 3]) σ σ'.
Proof.
  intros Hvalid.
  destruct (shift_in_bytes_run to_uint32 (2 ^ 32) eq_refl bytes_divide_2_32
              to_uint32_congruent to_uint32_residue p 4 0 σ Hvalid
              ltac:(lia) ltac:(lia)) as [σ' [Hrun Hst]].
  exists σ'. split; [exact Hrun |].
  cbn [seq map] in Hst.
  rewrite uint32_of_four_bytes in Hst;
    try (apply (buffer_byte_lookup σ _ Hvalid); lia).
  exact Hst.
Qed.

Lemma unpack64_run (p : N) (σ : World) :
  valid σ ->
  exists σ',
    shift_in_bytes to_uint64 p 4 8 σ = Some (tt, σ') /\
    stored_at p (big_endian [buffer_byte σ 4; buffer_byte σ 5;
                             buffer_byte σ 6; buffer_byte σ 7;
                             buffer_byte σ 8; buffer_byte σ 9;
                             buffer_byte σ 10; buffer_byte σ 11]) σ σ'.
Proof.
  intros Hvalid.
  destruct (shift_in_bytes_run to_uint64 (2 ^ 64) eq_refl bytes_divide_2_64
              to_uint64_congruent to_uint64_residue p 8 4 σ Hvalid
              ltac:(lia) ltac:(lia)) as [σ' [Hrun Hst]].
  exists σ'. split; [exact Hrun |].
  cbn [seq map] in Hst.
  rewrite uint64_of_eight_bytes in Hst;
    try (apply (buffer_byte_lookup σ _ Hvalid); lia).
  exact Hst.
Qed.


Lemma WriteCommand_returns (cmd : Command) (σ : World) :
  exists ok σ1,
    WriteCommand cmd σ = Some (ok, σ1) /\
    self σ1 = self σ /\ mem σ1 = mem σ /\
    Wire.calls (bus σ1) =
      Wire.calls (bus σ) ++
      [Wire.CallBegin (addr (self σ)); Wire.CallWrite [fst cmd; snd cmd]; Wire.CallEnd].
Proof.
  rewrite WriteCommand_run. eexists _, _. repeat split; reflexivity.
Qed.

(** [ReadProductID], step by step. *)
Lemma ReadProductID_run (pid serial : Pointer) (σ : World) :
  valid σ ->
  let words := match serial with Some _ => 4 | None => 2 end in
  exists ok1 σ1,
    WriteCommand ReadInfo1 σ = Some (ok1, σ1) /\
    if negb ok1 then ReadProductID pid serial σ = Some (false, σ1) else
    exists ok2 σ2,
      WriteCommand ReadInfo2 σ1 = Some (ok2, σ2) /\
      if negb ok2 then ReadProductID pid serial σ = Some (false, σ2) else
      exists ok3 σ3,
        ReadData words σ2 = Some (ok3, σ3) /\
        after_ReadData words σ2 σ3 /\
        if negb ok3 then ReadProductID pid serial σ = Some (false, σ3) else
        exists σ',
          ReadProductID pid serial σ = Some (true, σ') /\
          self σ' = self σ3 /\ bus σ' = bus σ3 /\
          (forall p, pid = Some p ->
             mem σ' p = big_endian [buffer_byte σ3 0; buffer_byte σ3 1;
                                    buffer_byte σ3 2; buffer_byte σ3 3]) /\
          (forall s, serial = Some s -> pid <> Some s ->
             mem σ' s = big_endian [buffer_byte σ3 4; buffer_byte σ3 5;
                                    buffer_byte σ3 6; buffer_byte σ3 7;
                                    buffer_byte σ3 8; buffer_byte σ3 9;
                                    buffer_byte σ3 10; buffer_byte σ3 11]) /\
          (forall q, pid <> Some q -> serial <> Some q -> mem σ' q = mem σ q).
Proof.
  intros Hvalid words.
  assert (Hcode : ReadProductID pid serial σ =
            (ok1 <- WriteCommand ReadInfo1 ;;
             if negb ok1 then ret false else
             ok2 <- WriteCommand ReadInfo2 ;;
             if negb ok2 then ret false else
             ok <- ReadData words ;;
             if negb ok then ret false else
             when (words =? 4)
               (if_not_null serial (fun p => shift_in_bytes to_uint64 p 4 8)) ;;
             when ((words =? 4) || (words =? 2))
               (if_not_null pid (fun p => shift_in_bytes to_uint32 p 0 4)) ;;
             ret true) σ).
  { subst words. destruct serial; reflexivity. }
  rewrite Hcode. clear Hcode.
  destruct (WriteCommand_returns ReadInfo1 σ) as [ok1 [σ1 [Hrun1 [Hs1 [Hm1 _]]]]].
  exists ok1, σ1. split; [exact Hrun1 |].
  rewrite (bind_run _ _ _ _ _ Hrun1).
  destruct ok1; cbn [negb]; [| reflexivity].
  destruct (WriteCommand_returns ReadInfo2 σ1) as [ok2 [σ2 [Hrun2 [Hs2 [Hm2 _]]]]].
  exists ok2, σ2. split; [exact Hrun2 |].
  rewrite (bind_run _ _ _ _ _ Hrun2).
  destruct ok2; cbn [negb]; [| reflexivity].
  assert (Hv2 : valid σ2).
  { destruct Hvalid as [Hl Hb]. split; rewrite Hs2, Hs1; assumption. }
  destruct (ReadData_returns words σ2) as [ok3 [σ3 [Hrun3 Hafter]]];
    [ subst words; destruct serial; lia | exact Hv2 | ].
  exists ok3, σ3. split; [exact Hrun3 |]. split; [exact Hafter |].
  rewrite (bind_run _ _ _ _ _ Hrun3).
  destruct ok3; cbn [negb]; [| reflexivity].
  destruct Hafter as [Hv3 [Hm3 _]].
  destruct (unpack_block (words =? 4) serial
              (fun p => shift_in_bytes to_uint64 p 4 8) _ σ3 Hv3
              (fun p => unpack64_run p σ3 Hv3))
    as [σa [Hra [Hva [Hsa [Hba [Hwa Hfa]]]]]].
  destruct (unpack_block ((words =? 4) || (words =? 2)) pid
              (fun p => shift_in_bytes to_uint32 p 0 4)
              (big_endian [buffer_byte σ3 0; buffer_byte σ3 1;
                           buffer_byte σ3 2; buffer_byte σ3 3]) σa Hva)
    as [σb [Hrb [Hvb [Hsb [Hbb [Hwb Hfb]]]]]].
  { intros p. destruct (unpack32_run p σa Hva) as [σ' [Hrun Hst]].
    exists σ'. split; [exact Hrun |].
    unfold buffer_byte in *. rewrite Hsa in Hst. exact Hst. }
  rewrite (bind_run _ _ _ _ _ Hra), (bind_run _ _ _ _ _ Hrb). unfold ret.
  exists σb. split; [reflexivity |].
  split; [congruence |]. split; [congruence |].
  split; [| split].
  - intros p Hp. apply Hwb; [| exact Hp].
    subst words. destruct serial; reflexivity.
  - intros s Hs Hps. rewrite (Hfb s (or_intror Hps)).
    apply Hwa; [| exact Hs]. subst words. rewrite Hs. reflexivity.
  - intros q Hp Hs.
    rewrite (Hfb q (or_intror Hp)), (Hfa q (or_intror Hs)).
    congruence.
Qed.

(** C7. [ReadProductID] writes the command 0x36 0x7C to the sensor and,
    only if that succeeded, the command 0xE1 0x02; only if that succeeded
    too it reads 2 words when [serial] is null and 4 words when it is not;
    it returns failure at the first of these three steps that fails,
    without writing through a pointer.  The bus sees the two write
    transactions and the request in this order, and nothing after the step
    that failed.  When all succeed, the object behind [pid] holds the
    32-bit value, most significant byte first, of the buffer bytes 0-3,
    and the object behind [serial] the 64-bit value of the buffer bytes
    4-11. *)
Theorem ReadProductID_steps (pid serial : Pointer) (σ : World) :
  valid σ ->
  let words := match serial with Some _ => 4 | None => 2 end in
  let info1 :=
    [Wire.CallBegin (addr (self σ)); Wire.CallWrite [0x36; 0x7C]; Wire.CallEnd] in
  let info2 :=
    [Wire.CallBegin (addr (self σ)); Wire.CallWrite [0xE1; 0x02]; Wire.CallEnd] in
  exists ok1 σ1,
    WriteCommand ReadInfo1 σ = Some (ok1, σ1) /\
    Wire.calls (bus σ1) = Wire.calls (bus σ) ++ info1 /\
    if negb ok1 then ReadProductID pid serial σ = Some (false, σ1) else
    exists ok2 σ2,
      WriteCommand ReadInfo2 σ1 = Some (ok2, σ2) /\
      Wire.calls (bus σ2) = Wire.calls (bus σ) ++ info1 ++ info2 /\
      if negb ok2 then ReadProductID pid serial σ = Some (false, σ2) else
      exists ok3 σ3,
        ReadData words σ2 = Some (ok3, σ3) /\
        after_ReadData words σ2 σ3 /\
        Wire.calls (bus σ3) =
          Wire.calls (bus σ) ++ info1 ++ info2 ++
          Wire.CallRequest (addr (self σ)) (3 * words) ::
          repeat Wire.CallRead (length (Wire.delivered (3 * words) (bus σ2))) /\
        if negb ok3 then ReadProductID pid serial σ = Some (false, σ3) else
        exists σ',
          ReadProductID pid serial σ = Some (true, σ') /\
          self σ' = self σ3 /\ bus σ' = bus σ3 /\
          (forall p, pid = Some p ->
             mem σ' p = big_endian [buffer_byte σ3 0; buffer_byte σ3 1;
                                    buffer_byte σ3 2; buffer_byte σ3 3]) /\
          (forall s, serial = Some s -> pid <> Some s ->
             mem σ' s = big_endian [buffer_byte σ3 4; buffer_byte σ3 5;
                                    buffer_byte σ3 6; buffer_byte σ3 7;
                                    buffer_byte σ3 8; buffer_byte σ3 9;
                                    buffer_byte σ3 10; buffer_byte σ3 11]) /\
          (forall q, pid <> Some q -> serial <> Some q -> mem σ' q = mem σ q).
Proof.
  intros Hvalid words info1 info2.
  destruct (ReadProductID_run pid serial σ Hvalid) as [ok1 [σ1 [Hrun1 Hrest]]].
  destruct (WriteCommand_returns ReadInfo1 σ) as [ok1' [σ1' [Hw1 [Hs1 [_ Hc1]]]]].
  rewrite Hrun1 in Hw1. injection Hw1 as <- <-.
  exists ok1, σ1. split; [exact Hrun1 |]. split; [exact Hc1 |].
  destruct ok1; cbn [negb] in *; [| exact Hrest].
  destruct Hrest as [ok2 [σ2 [Hrun2 Hrest]]].
  destruct (WriteCommand_returns ReadInfo2 σ1) as [ok2' [σ2' [Hw2 [Hs2 [_ Hc2]]]]].
  rewrite Hrun2 in Hw2. injection Hw2 as <- <-.
  assert (Hlog2 : Wire.calls (bus σ2) = Wire.calls (bus σ) ++ info1 ++ info2).
  { rewrite Hc2, Hc1, Hs1, <- app_assoc. reflexivity. }
  exists ok2, σ2. split; [exact Hrun2 |]. split; [exact Hlog2 |].
  destruct ok2; cbn [negb] in *; [| exact Hrest].
  destruct Hrest as [ok3 [σ3 [Hrun3 [Hafter Hrest]]]].
  exists ok3, σ3. split; [exact Hrun3 |]. split; [exact Hafter |].
  split; [| exact Hrest].
  destruct Hafter as [_ [_ [_ [_ [_ Hc3]]]]].
  rewrite Hc3, Hlog2, Hs2, Hs1, <- !app_assoc. reflexivity.
Qed.

Lemma ReadProductID_steps_witness :
  let σ := world_sdp31_info in
  valid σ /\
  exists σ',
    ReadProductID (Some 1%N) (Some 2%N) σ = Some (true, σ') /\
    Wire.calls (bus σ') =
      [Wire.CallBegin 0x21; Wire.CallWrite [0x36; 0x7C]; Wire.CallEnd;
       Wire.CallBegin 0x21; Wire.CallWrite [0xE1; 0x02]; Wire.CallEnd;
       Wire.CallRequest 0x21 12] ++ repeat Wire.CallRead 12 /\
    mem σ' 1%N = 0x03010188 /\
    mem σ' 2%N = big_endian [0xA1; 0xA2; 0xA3; 0xA4; crc_word 0xA3 0xA4; 0; 0; 0].
Proof.
  cbv zeta.
  assert (Hv : valid world_sdp31_info).
  { split; [reflexivity |]. simpl. repeat constructor; unfold is_uint8; lia. }
  split; [exact Hv |].
  destruct (ReadProductID_steps (Some 1%N) (Some 2%N) world_sdp31_info Hv)
    as [ok1 [σ1 [Hrun1 [_ Hrest]]]].
  assert (H1 : exists σx, WriteCommand ReadInfo1 world_sdp31_info = Some (true, σx) /\
                          WriteCommand ReadInfo2 σx =
                            Some (true, mkWorld (self σx)
                                          (Wire.mkTwoWire
                                             (Wire.calls (bus σx) ++
                                              [Wire.CallBegin 0x21; Wire.CallWrite [0xE1; 0x02];
                                               Wire.CallEnd])
                                             [] [] [] (Wire.deviceData (bus σx)))
                                          (mem σx)) /\
                          self σx = self world_sdp31_info /\
                          Wire.deviceData (bus σx) = Wire.deviceData (bus world_sdp31_info)).
  { eexists. split; [vm_compute; reflexivity |]. split; [| split]; reflexivity. }
  destruct H1 as [σx [Hx1 [Hx2 [Hxs Hxd]]]].
  rewrite Hx1 in Hrun1.
  assert (ok1 = true) by congruence. assert (σ1 = σx) by congruence. subst ok1 σ1.
  cbn [negb] in Hrest. destruct Hrest as [ok2 [σ2 [Hrun2 [_ Hrest]]]].
  rewrite Hx2 in Hrun2.
  assert (ok2 = true) by congruence. subst ok2.
  cbn [negb] in Hrest. destruct Hrest as [ok3 [σ3 [Hrun3 [_ [Hlog Hrest]]]]].
  assert (Hσ2 : σ2 = mkWorld (self σx)
                       (Wire.mkTwoWire
                          (Wire.calls (bus σx) ++
                           [Wire.CallBegin 0x21; Wire.CallWrite [0xE1; 0x02]; Wire.CallEnd])
                          [] [] [] (Wire.deviceData (bus σx)))
                       (mem σx)) by congruence.
  assert (H3 : exists σy, ReadData 4 σ2 = Some (true, σy) /\
                 buffer (self σy) =
                   [0x03; 0x01; 0x01; 0x88; 0xA1; 0xA2; 0xA3; 0xA4;
                    crc_word 0xA3 0xA4; 0; 0; 0; 0]).
  { rewrite Hσ2, Hxs, Hxd.
    eexists. split; vm_compute; reflexivity. }
  destruct H3 as [σy [Hy Hbuf]].
  rewrite Hy in Hrun3.
  assert (ok3 = true) by congruence. assert (σ3 = σy) by congruence. subst ok3 σ3.
  cbn [negb] in Hrest. destruct Hrest as [σ' [Hrun [_ [Hbus [Hpid [Hserial _]]]]]].
  exists σ'. split; [exact Hrun |].
  unfold buffer_byte in Hpid, Hserial. rewrite Hbuf in Hpid, Hserial.
  split; [| split].
  - rewrite Hbus, Hlog. rewrite Hσ2.
    cbn [bus Wire.deviceData Wire.delivered]. rewrite Hxd. reflexivity.
  - rewrite (Hpid 1%N eq_refl). reflexivity.
  - rewrite (Hserial 2%N eq_refl ltac:(discriminate)). reflexivity.
Defined.

(** ** Begin and the pressure scale *)

Lemma ReadProductID_returns (pid serial : Pointer) (σ : World) :
  valid σ ->
  exists ok σ1,
    ReadProductID pid serial σ = Some (ok, σ1) /\
    number (self σ1) = number (self σ).
Proof.
  intros Hvalid.
  destruct (ReadProductID_run pid serial σ Hvalid) as [ok1 [σ1 [Hrun1 Hrest]]].
  destruct (WriteCommand_returns ReadInfo1 σ) as [ok1' [σ1' [Hrun1' [Hs1 _]]]].
  assert (σ1' = σ1) by congruence. subst σ1'.
  destruct ok1; cbn [negb] in Hrest;
    [| eexists _, _; split; [exact Hrest | congruence]].
  destruct Hrest as [ok2 [σ2 [Hrun2 Hrest]]].
  destruct (WriteCommand_returns ReadInfo2 σ1) as [ok2' [σ2' [Hrun2' [Hs2 _]]]].
  assert (σ2' = σ2) by congruence. subst σ2'.
  destruct ok2; cbn [negb] in Hrest;
    [| eexists _, _; split; [exact Hrest | congruence]].
  destruct Hrest as [ok3 [σ3 [Hrun3 [[_ [_ [Hn3 _]]] Hrest]]]].
  destruct ok3; cbn [negb] in Hrest;
    [| eexists _, _; split; [exact Hrest | congruence]].
  destruct Hrest as [σ' [Hrun [Hs' _]]].
  eexists _, _. split; [exact Hrun | congruence].
Qed.

(** What [Begin] makes of the product identifier it reads: the two known
    identifiers select the model and with it the scale 60 or 240; after any
    other identifier, and after a failed read, [number] is what it was, and
    so is the pressure scale. *)
Lemma Begin_model_detection (modelNumber : N) (σ : World) :
  valid σ ->
  exists ok σ1,
    ReadProductID (Some modelNumber) None σ = Some (ok, σ1) /\
    if negb ok then
      Begin modelNumber σ = Some (false, σ1) /\
      GetPressureScale (self σ1) = GetPressureScale (self σ)
    else if mem σ1 modelNumber =? 0x03010188 then
      exists σ', Begin modelNumber σ = Some (true, σ') /\ GetPressureScale (self σ') = 60
    else if mem σ1 modelNumber =? 0x03010288 then
      exists σ', Begin modelNumber σ = Some (true, σ') /\ GetPressureScale (self σ') = 240
    else
      Begin modelNumber σ = Some (false, σ1) /\
      GetPressureScale (self σ1) = GetPressureScale (self σ).
Proof.
  intros Hvalid.
  destruct (ReadProductID_returns (Some modelNumber) None σ Hvalid)
    as [ok [σ1 [Hrun Hnum]]].
  exists ok, σ1. split; [exact Hrun |].
  unfold Begin. rewrite (bind_run _ _ _ _ _ Hrun).
  assert (Hscale : GetPressureScale (self σ1) = GetPressureScale (self σ))
    by (unfold GetPressureScale; rewrite Hnum; reflexivity).
  destruct ok; cbn [negb]; [| split; [reflexivity | exact Hscale]].
  unfold bind, load, set_number, ret. cbv beta iota.
  change SDP31_PID with 0x03010188. change SDP32_PID with 0x03010288.
  destruct (mem σ1 modelNumber =? 0x03010188).
  - eexists. split; reflexivity.
  - destruct (mem σ1 modelNumber =? 0x03010288).
    + eexists. split; reflexivity.
    + split; [reflexivity | exact Hscale].
Qed.

(** C8, at a failing input.  A driver built in zeroed storage (an object
    with static storage duration) has [number = SDP31], because the
    constructor does not set it.  When the sensor answers [Begin] with the
    product identifier 0x03010388, [Begin] returns failure, [number] is
    still [SDP31], and [GetPressureScale] returns 60, not the fallback 1. *)
Theorem Begin_unknown_id_scale_60 :
  let σ := world_unknown_sensor in
  valid σ /\
  number (self σ) = SDP31 /\
  exists σ',
    Begin 0%N σ = Some (false, σ') /\
    mem σ' 0%N = 0x03010388 /\
    number (self σ') = SDP31 /\
    GetPressureScale (self σ') = 60.
Proof.
  cbv zeta. split; [apply world_with_valid |]. split; [reflexivity |].
  eexists. split; [vm_compute; reflexivity |].
  split; [| split]; reflexivity.
Qed.

(** The later revision reads six words for a serial number, so that the
    buffer bytes 4-11 are the eight payload bytes of the words 3 to 6; with
    the four words of [ReadProductID] the bytes 8-11 are the check value of
    the fourth word and three zeros (see the witness above). *)
Example readProductID_six_words :
  exists σ',
    readProductID (Some 1%N) (Some 2%N) world_sdp31_serial = Some (true, σ') /\
    nth 6 (Wire.calls (bus σ')) Wire.CallEnd = Wire.CallRequest 0x21 18 /\
    mem σ' 1%N = 0x03010188 /\
    mem σ' 2%N = 0xA1A2A3A4A5A6A7A8.
Proof.
  eexists. split; [vm_compute; reflexivity |].
  repeat split; reflexivity.
Qed.

(** * Further properties *)

(** ** The scratch buffer after a complete read *)

(** One turn of the reading loop, on a bus that has the byte [b] to hand
    out next. *)
Lemma read_bytes_step (read next : nat) (crc : Z) (success : bool) (σ : World)
    (b : Z) (rx : list Z) :
  valid σ -> (next < 13)%nat ->
  Wire.rxBuffer (bus σ) = b :: rx -> is_uint8 b ->
  let σ1 := set_buffer (<[next := b]> (buffer (self σ)))
                       (set_bus (snd (Wire.read (bus σ))) σ) in
  valid σ1 /\ Wire.rxBuffer (bus σ1) = rx /\
  read_bytes (S read) next crc success σ =
    if Z.of_nat (S read) mod 3 =? 1
    then read_bytes read next 0xFF (success && (crc =? b)) σ1
    else read_bytes read (S next) (crc_update crc b) success σ1.
Proof.
  intros [Hlen Hbytes] Hnext Hrx Hb σ1. split; [| split].
  - split; simpl.
    + rewrite length_insert. exact Hlen.
    + apply Forall_insert; [exact Hbytes | exact Hb].
  - subst σ1. simpl. rewrite Hrx. reflexivity.
  - cbn [read_bytes]. unfold bind at 1. unfold Wire_read, on_bus.
    unfold bind at 1. unfold poke. cbn [self bus set_bus fst snd Wire.read].
    unfold buffer_size in Hlen. rewrite Hlen.
    destruct (Nat.ltb_spec next 13) as [_ | Hge]; [| lia].
    unfold bind at 1. unfold peek. cbn [self set_buffer buffer].
    rewrite list_lookup_insert_eq by (rewrite Hlen; exact Hnext).
    subst σ1. cbn [Wire.read snd]. rewrite Hrx. cbn [hd].
    rewrite (to_uint8_id b Hb).
    destruct (Z.of_nat (S read) mod 3 =? 1); reflexivity.
Qed.

(** The reading loop over [m] complete words. *)
Lemma read_words_run (m : nat) : forall (next : nat) (success : bool) (σ : World) (d : list Z),
  Wire.rxBuffer (bus σ) = d -> length d = (3 * m)%nat -> Forall is_uint8 d ->
  valid σ -> (next + 2 * m <= 12)%nat ->
  read_bytes (3 * m) next 0xFF success σ =
    Some (success && words_ok d,
          set_bus (Wire.drained (3 * m) (bus σ))
                  (set_buffer (store_words next d (buffer (self σ))) σ)).
Proof.
  induction m as [| m IH]; intros next success σ d Hrx Hlen Hd Hvalid Hfit.
  - destruct d; [| discriminate Hlen].
    destruct σ as [[n a c buf] w mm]. simpl. rewrite andb_true_r. reflexivity.
  - replace (3 * S m)%nat with (S (S (S (3 * m)))) in * by lia.
    destruct d as [| b0 [| b1 [| c rest]]]; try discriminate Hlen.
    inversion Hd as [| ? ? H0 Hd1]; subst.
    inversion Hd1 as [| ? ? H1 Hd2]; subst.
    inversion Hd2 as [| ? ? Hc Hrest]; subst.
    destruct (read_bytes_step (S (S (3 * m))) next 0xFF success σ b0 _
                Hvalid ltac:(lia) Hrx H0) as [Hv1 [Hrx1 Hs1]].
    rewrite Hs1. clear Hs1.
    replace (Z.of_nat (S (S (S (3 * m)))) mod 3 =? 1) with false
      by (symmetry; apply Z.eqb_neq; lia_div).
    set (σ1 := set_buffer (<[next := b0]> (buffer (self σ)))
                          (set_bus (snd (Wire.read (bus σ))) σ)) in *.
    destruct (read_bytes_step (S (3 * m)) (S next) (crc_update 0xFF b0) success σ1 b1 _
                Hv1 ltac:(lia) Hrx1 H1) as [Hv2 [Hrx2 Hs2]].
    rewrite Hs2. clear Hs2.
    replace (Z.of_nat (S (S (3 * m))) mod 3 =? 1) with false
      by (symmetry; apply Z.eqb_neq; lia_div).
    set (σ2 := set_buffer (<[S next := b1]> (buffer (self σ1)))
                          (set_bus (snd (Wire.read (bus σ1))) σ1)) in *.
    destruct (read_bytes_step (3 * m) (S (S next)) (crc_update (crc_update 0xFF b0) b1)
                success σ2 c _ Hv2 ltac:(lia) Hrx2 Hc) as [Hv3 [Hrx3 Hs3]].
    rewrite Hs3. clear Hs3.
    replace (Z.of_nat (S (3 * m)) mod 3 =? 1) with true
      by (symmetry; apply Z.eqb_eq; lia_div).
    set (σ3 := set_buffer (<[S (S next) := c]> (buffer (self σ2)))
                          (set_bus (snd (Wire.read (bus σ2))) σ2)) in *.
    rewrite (IH (S (S next)) _ σ3 rest Hrx3 ltac:(simpl in Hlen; lia) Hrest Hv3 ltac:(lia)).
    cbn [words_ok store_words]. unfold crc_word. rewrite andb_assoc.
    f_equal. f_equal.
    subst σ3 σ2 σ1. cbn [bus set_bus set_buffer self buffer mem number addr comp].
    rewrite !drained_succ. reflexivity.
Qed.

Lemma store_words_cleared (m : nat) (x : Z) (d : list Z) :
  (1 <= m <= 6)%nat -> length d = (3 * m)%nat ->
  store_words 0 d (x :: repeat 0 12) =
  payload d ++ List.last d 0 :: repeat 0 (12 - 2 * m).
Proof.
  intros Hm Hlen.
  assert (Hcases : m = 1%nat \/ m = 2%nat \/ m = 3%nat \/ m = 4%nat \/ m = 5%nat \/ m = 6%nat)
    by lia.
  destruct Hcases as [-> | [-> | [-> | [-> | [-> | ->]]]]];
    simpl in Hlen;
    repeat (destruct d as [| ? d]; simpl in Hlen; try discriminate Hlen);
    reflexivity.
Qed.

(** [ReadData] on a bus that delivers exactly the bytes asked for. *)
Lemma ReadData_exact (n : Z) (σ : World) (d : list Z) :
  1 <= n <= 6 -> valid σ ->
  Wire.delivered (3 * n) (bus σ) = d -> Z.of_nat (length d) = 3 * n ->
  ReadData n σ =
    Some (words_ok d,
          set_bus (Wire.mkTwoWire
                     (Wire.calls (bus σ) ++
                      Wire.CallRequest (addr (self σ)) (3 * n) ::
                      repeat Wire.CallRead (length d))
                     [] (Wire.writeResults (bus σ)) (Wire.endResults (bus σ))
                     (tl (Wire.deviceData (bus σ))))
                  (set_buffer (payload d ++ List.last d 0 :: repeat 0 (12 - 2 * Z.to_nat n)) σ)).
Proof.
  intros Hn Hvalid Hd Hlen. subst d.
  set (d := Wire.delivered (3 * n) (bus σ)) in *.
  pose proof (valid_length σ Hvalid) as Hbuf.
  assert (Hm : length d = (3 * Z.to_nat n)%nat) by lia.
  set (σc := set_buffer (hd 0 (buffer (self σ)) :: repeat 0 12) σ).
  set (σr := set_bus (snd (Wire.requestFrom (addr (self σ)) (3 * n) (bus σ))) σc).
  assert (Hvr : valid σr).
  { split; [reflexivity |]. simpl. constructor.
    - destruct Hvalid as [_ Hb].
      destruct (buffer (self σ)) as [| x l]; [discriminate Hbuf |].
      inversion Hb; assumption.
    - repeat constructor; unfold is_uint8; lia. }
  assert (Hrx : Wire.rxBuffer (bus σr) = d) by reflexivity.
  pose proof (read_words_run (Z.to_nat n) 0 true σr d Hrx Hm
                (delivered_uint8 (3 * n) (bus σ)) Hvr ltac:(lia)) as Hrun.
  unfold ReadData. unfold bind at 1. rewrite (clear_buffer_run σ Hbuf).
  unfold bind at 1. unfold this. unfold bind at 1.
  unfold Wire_requestFrom, on_bus.
  cbn [self bus set_buffer addr fst snd Wire.requestFrom].
  rewrite (request_quantity n) by lia. fold d. rewrite Hlen, Z.eqb_refl. cbn [negb].
  replace (Z.to_nat (3 * n)) with (3 * Z.to_nat n)%nat by lia.
  match goal with |- _ = ?rhs =>
    change (read_bytes (3 * Z.to_nat n) 0 255 true σr = rhs) end.
  rewrite Hrun. cbn [andb]. rewrite drained_unfold.
  subst σr σc. cbn [bus set_bus set_buffer self mem snd Wire.requestFrom
                    Wire.calls Wire.rxBuffer Wire.writeResults Wire.endResults
                    Wire.deviceData number addr comp buffer].
  fold d. rewrite <- Hm. rewrite skipn_all. rewrite <- app_assoc.
  rewrite (store_words_cleared (Z.to_nat n)) by lia.
  reflexivity.
Qed.

(** The same with what the callers need of the world afterwards. *)
Lemma ReadData_complete (n : Z) (σ : World) (d : list Z) :
  1 <= n <= 6 -> valid σ ->
  Wire.delivered (3 * n) (bus σ) = d -> Z.of_nat (length d) = 3 * n ->
  exists σ1,
    ReadData n σ = Some (words_ok d, σ1) /\
    valid σ1 /\ mem σ1 = mem σ /\
    number (self σ1) = number (self σ) /\
    addr (self σ1) = addr (self σ) /\
    comp (self σ1) = comp (self σ) /\
    buffer (self σ1) = payload d ++ List.last d 0 :: repeat 0 (12 - 2 * Z.to_nat n) /\
    Wire.calls (bus σ1) =
      Wire.calls (bus σ) ++
      Wire.CallRequest (addr (self σ)) (3 * n) :: repeat Wire.CallRead (length d) /\
    Wire.writeResults (bus σ1) = Wire.writeResults (bus σ) /\
    Wire.endResults (bus σ1) = Wire.endResults (bus σ).
Proof.
  intros Hn Hvalid Hd Hlen.
  pose proof (ReadData_exact n σ d Hn Hvalid Hd Hlen) as Hrun.
  destruct (ReadData_returns n σ ltac:(lia) Hvalid) as [ok [σ1 [Hrun' [Hv1 _]]]].
  rewrite Hrun in Hrun'.
  assert (Hσ1 : σ1 = set_bus (Wire.mkTwoWire
                     (Wire.calls (bus σ) ++
                      Wire.CallRequest (addr (self σ)) (3 * n) ::
                      repeat Wire.CallRead (length d))
                     [] (Wire.writeResults (bus σ)) (Wire.endResults (bus σ))
                     (tl (Wire.deviceData (bus σ))))
                  (set_buffer (payload d ++ List.last d 0 :: repeat 0 (12 - 2 * Z.to_nat n)) σ))
    by congruence.
  eexists. split; [exact Hrun |].
  split; [rewrite <- Hσ1; exact Hv1 |].
  repeat split; reflexivity.
Qed.

(** X1. When the bus delivers exactly the 3 n bytes of n words (n from 1
    to 6), [ReadData n] leaves in the buffer the 2 n payload bytes in the
    order received, then the check byte of the last word, then zeros; its
    result says whether every word carried its check value. *)
Theorem ReadData_buffer_contents (n : Z) (σ : World) :
  1 <= n <= 6 -> valid σ ->
  let d := Wire.delivered (3 * n) (bus σ) in
  Z.of_nat (length d) = 3 * n ->
  exists σ',
    ReadData n σ = Some (words_ok d, σ') /\
    buffer (self σ') = payload d ++ List.last d 0 :: repeat 0 (12 - 2 * Z.to_nat n).
Proof.
  intros Hn Hvalid d Hlen.
  rewrite (ReadData_exact n σ d Hn Hvalid eq_refl Hlen).
  eexists. split; reflexivity.
Qed.

Lemma ReadData_buffer_contents_witness :
  let σ := world_with MassFlow [] [] [word 0x12 0x34 ++ word 0x56 0x78] in
  1 <= 2 <= 6 /\ valid σ /\
  Z.of_nat (length (Wire.delivered (3 * 2) (bus σ))) = 3 * 2 /\
  exists σ',
    ReadData 2 σ = Some (true, σ') /\
    buffer (self σ') = [0x12; 0x34; 0x56; 0x78; crc_word 0x56 0x78; 0; 0; 0; 0; 0; 0; 0; 0].
Proof.
  cbv zeta.
  assert (Hv : valid (world_with MassFlow [] [] [word 0x12 0x34 ++ word 0x56 0x78])).
  { split; [reflexivity |]. simpl. repeat constructor; unfold is_uint8; lia. }
  split; [lia | split; [exact Hv | split; [reflexivity |]]].
  exact (ReadData_buffer_contents 2 _ ltac:(lia) Hv eq_refl).
Defined.

(** ** From the bytes on the bus to the objects of the caller *)

(** A command that the bus takes and acknowledges. *)
Lemma WriteCommand_accepted (cmd : Command) (σ : World) (wr er : list Z) :
  Wire.writeResults (bus σ) = 2 :: wr -> Wire.endResults (bus σ) = 0 :: er ->
  WriteCommand cmd σ =
    Some (true,
          set_bus (Wire.mkTwoWire
                     (Wire.calls (bus σ) ++
                      [Wire.CallBegin (addr (self σ));
                       Wire.CallWrite [fst cmd; snd cmd]; Wire.CallEnd])
                     (Wire.rxBuffer (bus σ)) wr er (Wire.deviceData (bus σ)))
                  σ).
Proof.
  intros Hwr Her. rewrite WriteCommand_run, Hwr, Her. reflexivity.
Qed.

(** The part of [GetMeasurement] after [ReadData]. *)
Lemma GetMeasurement_after_read (pressure temp scale : Pointer) (σ σ1 : World) (ok : bool) :
  ReadData (match scale, temp with
            | Some _, _ => 3
            | None, Some _ => 2
            | None, None => 1
            end) σ = Some (ok, σ1) ->
  valid σ1 ->
  exists σ',
    GetMeasurement pressure temp scale σ = Some (ok, σ') /\
    valid σ' /\ self σ' = self σ1 /\ bus σ' = bus σ1 /\
    (ok = false -> mem σ' = mem σ1) /\
    (ok = true ->
       (forall p, pressure = Some p ->
          mem σ' p = to_int16 (big_endian [buffer_byte σ1 0; buffer_byte σ1 1])) /\
       (forall t, temp = Some t -> pressure <> Some t ->
          mem σ' t = to_int16 (big_endian [buffer_byte σ1 2; buffer_byte σ1 3])) /\
       (forall s, scale = Some s -> temp <> Some s -> pressure <> Some s ->
          mem σ' s = to_int16 (big_endian [buffer_byte σ1 4; buffer_byte σ1 5])) /\
       (forall q, pressure <> Some q -> temp <> Some q -> scale <> Some q ->
          mem σ' q = mem σ1 q)).
Proof.
  set (words := match scale, temp with
                | Some _, _ => 3
                | None, Some _ => 2
                | None, None => 1
                end).
  intros Hrun Hv1.
  assert (Hcode : GetMeasurement pressure temp scale σ =
            (ok <- ReadData words ;;
             if negb ok then ret false else
             when (words =? 3)
               (if_not_null scale (fun p => shift_in to_int16 p 4 ;; shift_in to_int16 p 5)) ;;
             when ((words =? 3) || (words =? 2))
               (if_not_null temp (fun p => shift_in to_int16 p 2 ;; shift_in to_int16 p 3)) ;;
             when ((words =? 3) || (words =? 2) || (words =? 1))
               (if_not_null pressure (fun p => shift_in to_int16 p 0 ;; shift_in to_int16 p 1)) ;;
             ret true) σ).
  { subst words. destruct scale, temp; reflexivity. }
  rewrite Hcode. rewrite (bind_run _ _ _ _ _ Hrun).
  destruct ok; cbn [negb].
  - destruct (unpack_block (words =? 3) scale
                (fun p => shift_in to_int16 p 4 ;; shift_in to_int16 p 5) _ σ1 Hv1
                (fun p => unpack16_run p 4 σ1 Hv1 ltac:(lia)))
      as [σa [Hra [Hva [Hsa [Hba [Hwa Hfa]]]]]].
    destruct (unpack_block ((words =? 3) || (words =? 2)) temp
                (fun p => shift_in to_int16 p 2 ;; shift_in to_int16 p 3) _ σa Hva
                (fun p => unpack16_run p 2 σa Hva ltac:(lia)))
      as [σb [Hrb [Hvb [Hsb [Hbb [Hwb Hfb]]]]]].
    destruct (unpack_block ((words =? 3) || (words =? 2) || (words =? 1)) pressure
                (fun p => shift_in to_int16 p 0 ;; shift_in to_int16 p 1) _ σb Hvb
                (fun p => unpack16_run p 0 σb Hvb ltac:(lia)))
      as [σc [Hrc [Hvc [Hsc [Hbc [Hwc Hfc]]]]]].
    rewrite (bind_run _ _ _ _ _ Hra), (bind_run _ _ _ _ _ Hrb), (bind_run _ _ _ _ _ Hrc).
    unfold ret.
    assert (Hbyte_a : forall i, buffer_byte σa i = buffer_byte σ1 i)
      by (intros i; unfold buffer_byte; rewrite Hsa; reflexivity).
    assert (Hbyte_b : forall i, buffer_byte σb i = buffer_byte σ1 i)
      by (intros i; unfold buffer_byte; rewrite Hsb, Hsa; reflexivity).
    exists σc. split; [reflexivity |]. split; [exact Hvc |].
    split; [congruence |]. split; [congruence |].
    split; [discriminate |]. intros _.
    split; [| split; [| split]].
    + intros p Hp.
      rewrite (Hwc ltac:(subst words; destruct scale, temp; reflexivity) p Hp).
      rewrite !Hbyte_b. reflexivity.
    + intros t Ht Hpt.
      rewrite (Hfc t (or_intror Hpt)).
      rewrite (Hwb ltac:(subst words; rewrite Ht; destruct scale; reflexivity) t Ht).
      rewrite !Hbyte_a. reflexivity.
    + intros s Hs Hts Hps.
      rewrite (Hfc s (or_intror Hps)), (Hfb s (or_intror Hts)).
      exact (Hwa ltac:(subst words; rewrite Hs; reflexivity) s Hs).
    + intros q Hp Ht Hs.
      rewrite (Hfc q (or_intror Hp)), (Hfb q (or_intror Ht)), (Hfa q (or_intror Hs)).
      reflexivity.
  - exists σ1. split; [reflexivity |]. split; [exact Hv1 |].
    split; [reflexivity |]. split; [reflexivity |].
    split; [reflexivity | discriminate].
Qed.

(** X2. A measurement from the wire to the caller.  When the sensor answers
    with as many correct words as [GetMeasurement] reads for its pointers
    (pressure [a b], then temperature [c d], then scale factor [e f]),
    [GetMeasurement] returns success and every object behind a pointer
    that is not null holds the signed 16-bit value of its word, high byte
    first; every other object of the caller is as before.  With [scale]
    set and [temp] null, the temperature word is read and dropped. *)
Theorem GetMeasurement_end_to_end (pressure temp scale : Pointer) (σ : World)
    (a b c d e f : Z) :
  valid σ ->
  Wire.delivered (match scale, temp with
                  | Some _, _ => 9
                  | None, Some _ => 6
                  | None, None => 3
                  end) (bus σ) =
    match scale, temp with
    | Some _, _ => word a b ++ word c d ++ word e f
    | None, Some _ => word a b ++ word c d
    | None, None => word a b
    end ->
  exists σ',
    GetMeasurement pressure temp scale σ = Some (true, σ') /\
    (forall p, pressure = Some p -> mem σ' p = to_int16 (big_endian [a; b])) /\
    (forall t, temp = Some t -> pressure <> Some t ->
       mem σ' t = to_int16 (big_endian [c; d])) /\
    (forall s, scale = Some s -> temp <> Some s -> pressure <> Some s ->
       mem σ' s = to_int16 (big_endian [e; f])) /\
    (forall q, pressure <> Some q -> temp <> Some q -> scale <> Some q ->
       mem σ' q = mem σ q).
Proof.
  intros Hvalid Hd.
  assert (Hread : exists σ1,
            ReadData (match scale, temp with
                      | Some _, _ => 3
                      | None, Some _ => 2
                      | None, None => 1
                      end) σ = Some (true, σ1) /\
            valid σ1 /\ mem σ1 = mem σ /\
            (buffer_byte σ1 0 = a /\ buffer_byte σ1 1 = b) /\
            (temp <> None \/ scale <> None ->
             buffer_byte σ1 2 = c /\ buffer_byte σ1 3 = d) /\
            (scale <> None -> buffer_byte σ1 4 = e /\ buffer_byte σ1 5 = f)).
  { destruct scale as [s |]; [| destruct temp as [t |]].
    - destruct (ReadData_complete 3 σ _ ltac:(lia) Hvalid Hd eq_refl)
        as [σ1 [Hrun [Hv1 [Hm [_ [_ [_ [Hbuf _]]]]]]]].
      cbn [word app words_ok] in Hrun. rewrite !Z.eqb_refl in Hrun. cbn [andb] in Hrun.
      exists σ1. split; [exact Hrun |]. split; [exact Hv1 |]. split; [exact Hm |].
      unfold buffer_byte. rewrite Hbuf.
      split; [| split]; intros; split; reflexivity.
    - destruct (ReadData_complete 2 σ _ ltac:(lia) Hvalid Hd eq_refl)
        as [σ1 [Hrun [Hv1 [Hm [_ [_ [_ [Hbuf _]]]]]]]].
      cbn [word app words_ok] in Hrun. rewrite !Z.eqb_refl in Hrun. cbn [andb] in Hrun.
      exists σ1. split; [exact Hrun |]. split; [exact Hv1 |]. split; [exact Hm |].
      unfold buffer_byte. rewrite Hbuf.
      split; [| split]; intros; try congruence; split; reflexivity.
    - destruct (ReadData_complete 1 σ _ ltac:(lia) Hvalid Hd eq_refl)
        as [σ1 [Hrun [Hv1 [Hm [_ [_ [_ [Hbuf _]]]]]]]].
      cbn [word app words_ok] in Hrun. rewrite !Z.eqb_refl in Hrun. cbn [andb] in Hrun.
      exists σ1. split; [exact Hrun |]. split; [exact Hv1 |]. split; [exact Hm |].
      unfold buffer_byte. rewrite Hbuf.
      split; [| split]; intros; try tauto; split; reflexivity. }
  destruct Hread as [σ1 [Hrun [Hv1 [Hmem [Hp [Ht Hs]]]]]].
  destruct (GetMeasurement_after_read pressure temp scale σ σ1 true Hrun Hv1)
    as [σ' [Hget [_ [_ [_ [_ Hok]]]]]].
  destruct (Hok eq_refl) as [Hwp [Hwt [Hws Hframe]]].
  exists σ'. split; [exact Hget |].
  split; [| split; [| split]].
  - intros p Hpp. rewrite (Hwp p Hpp).
    destruct Hp as [-> ->]. reflexivity.
  - intros t Htt Hpt. rewrite (Hwt t Htt Hpt).
    destruct (Ht ltac:(left; congruence)) as [-> ->]. reflexivity.
  - intros s Hss Hts Hps. rewrite (Hws s Hss Hts Hps).
    destruct (Hs ltac:(congruence)) as [-> ->]. reflexivity.
  - intros q H1 H2 H3. rewrite (Hframe q H1 H2 H3), Hmem. reflexivity.
Qed.

Lemma GetMeasurement_end_to_end_witness :
  let σ := world_with MassFlow [] []
             [word 0x12 0x34 ++ word 0xFF 0x00 ++ word 0x00 0x3C] in
  valid σ /\
  Wire.delivered 9 (bus σ) = word 0x12 0x34 ++ word 0xFF 0x00 ++ word 0x00 0x3C /\
  exists σ',
    GetMeasurement (Some 1%N) None (Some 3%N) σ = Some (true, σ') /\
    mem σ' 1%N = 0x1234 /\ mem σ' 3%N = 60 /\ mem σ' 2%N = mem σ 2%N.
Proof.
  cbv zeta.
  set (σ := world_with MassFlow [] []
              [word 0x12 0x34 ++ word 0xFF 0x00 ++ word 0x00 0x3C]).
  assert (Hv : valid σ).
  { split; [reflexivity |]. simpl. repeat constructor; unfold is_uint8; lia. }
  split; [exact Hv |]. split; [reflexivity |].
  destruct (GetMeasurement_end_to_end (Some 1%N) None (Some 3%N) σ
              0x12 0x34 0xFF 0x00 0x00 0x3C Hv eq_refl)
    as [σ' [Hget [Hp [_ [Hs Hframe]]]]].
  exists σ'. split; [exact Hget |].
  split; [| split].
  - rewrite (Hp 1%N eq_refl). reflexivity.
  - rewrite (Hs 3%N eq_refl ltac:(discriminate) ltac:(discriminate)). reflexivity.
  - apply Hframe; discriminate.
Defined.

(** ** The product identifier from the wire to the caller *)

(** The two guarded blocks at the end of [ReadProductID] and of
    [readProductID]. *)
Lemma ids_after_read (c4 c2 : bool) (pid serial : Pointer) (σ1 : World) :
  valid σ1 ->
  exists σ',
    (when c4 (if_not_null serial (fun p => shift_in_bytes to_uint64 p 4 8)) ;;
     when c2 (if_not_null pid (fun p => shift_in_bytes to_uint32 p 0 4)) ;;
     ret true) σ1 = Some (true, σ') /\
    valid σ' /\ self σ' = self σ1 /\ bus σ' = bus σ1 /\
    (c2 = true -> forall p, pid = Some p ->
       mem σ' p = big_endian [buffer_byte σ1 0; buffer_byte σ1 1;
                              buffer_byte σ1 2; buffer_byte σ1 3]) /\
    (c4 = true -> forall s, serial = Some s -> pid <> Some s ->
       mem σ' s = big_endian [buffer_byte σ1 4; buffer_byte σ1 5;
                              buffer_byte σ1 6; buffer_byte σ1 7;
                              buffer_byte σ1 8; buffer_byte σ1 9;
                              buffer_byte σ1 10; buffer_byte σ1 11]) /\
    (forall q, pid <> Some q -> serial <> Some q -> mem σ' q = mem σ1 q).
Proof.
  intros Hv1.
  destruct (unpack_block c4 serial (fun p => shift_in_bytes to_uint64 p 4 8) _ σ1 Hv1
              (fun p => unpack64_run p σ1 Hv1))
    as [σa [Hra [Hva [Hsa [Hba [Hwa Hfa]]]]]].
  destruct (unpack_block c2 pid (fun p => shift_in_bytes to_uint32 p 0 4)
              (big_endian [buffer_byte σ1 0; buffer_byte σ1 1;
                           buffer_byte σ1 2; buffer_byte σ1 3]) σa Hva)
    as [σb [Hrb [Hvb [Hsb [Hbb [Hwb Hfb]]]]]].
  { intros p. destruct (unpack32_run p σa Hva) as [σ' [Hrun Hst]].
    exists σ'. split; [exact Hrun |].
    unfold buffer_byte in *. rewrite Hsa in Hst. exact Hst. }
  rewrite (bind_run _ _ _ _ _ Hra), (bind_run _ _ _ _ _ Hrb). unfold ret.
  exists σb. split; [reflexivity |]. split; [exact Hvb |].
  split; [congruence |]. split; [congruence |].
  split; [exact Hwb |]. split.
  - intros Hc s Hs Hps. rewrite (Hfb s (or_intror Hps)). exact (Hwa Hc s Hs).
  - intros q Hp Hs. rewrite (Hfb q (or_intror Hp)), (Hfa q (or_intror Hs)). reflexivity.
Qed.

(** Both information commands accepted, then [n] correct words read, then
    the two blocks: the course of a successful [ReadProductID] or
    [readProductID]. *)
Lemma product_id_run (n : Z) (c4 c2 : bool) (pid serial : Pointer) (σ : World)
    (wr er d : list Z) :
  1 <= n <= 6 -> valid σ ->
  Wire.writeResults (bus σ) = 2 :: 2 :: wr ->
  Wire.endResults (bus σ) = 0 :: 0 :: er ->
  Wire.delivered (3 * n) (bus σ) = d -> Z.of_nat (length d) = 3 * n ->
  words_ok d = true ->
  exists σ',
    (ok1 <- WriteCommand ReadInfo1 ;;
     if negb ok1 then ret false else
     ok2 <- WriteCommand ReadInfo2 ;;
     if negb ok2 then ret false else
     ok <- ReadData n ;;
     if negb ok then ret false else
     when c4 (if_not_null serial (fun p => shift_in_bytes to_uint64 p 4 8)) ;;
     when c2 (if_not_null pid (fun p => shift_in_bytes to_uint32 p 0 4)) ;;
     ret true) σ = Some (true, σ') /\
    valid σ' /\
    number (self σ') = number (self σ) /\
    addr (self σ') = addr (self σ) /\
    comp (self σ') = comp (self σ) /\
    Wire.calls (bus σ') =
      Wire.calls (bus σ) ++
      [Wire.CallBegin (addr (self σ)); Wire.CallWrite [0x36; 0x7C]; Wire.CallEnd;
       Wire.CallBegin (addr (self σ)); Wire.CallWrite [0xE1; 0x02]; Wire.CallEnd] ++
      Wire.CallRequest (addr (self σ)) (3 * n) :: repeat Wire.CallRead (length d) /\
    let b := fun i => nth i (payload d ++ List.last d 0 :: repeat 0 (12 - 2 * Z.to_nat n)) 0 in
    (c2 = true -> forall p, pid = Some p ->
       mem σ' p = big_endian [b 0; b 1; b 2; b 3]%nat) /\
    (c4 = true -> forall s, serial = Some s -> pid <> Some s ->
       mem σ' s = big_endian [b 4; b 5; b 6; b 7; b 8; b 9; b 10; b 11]%nat) /\
    (forall q, pid <> Some q -> serial <> Some q -> mem σ' q = mem σ q).
Proof.
  intros Hn Hvalid Hwr Her Hd Hlen Hok.
  rewrite (bind_run _ _ _ _ _ (WriteCommand_accepted ReadInfo1 σ _ _ Hwr Her)).
  cbn [negb].
  set (σ1 := set_bus _ σ).
  rewrite (bind_run _ _ _ _ _
             (WriteCommand_accepted ReadInfo2 σ1 wr er eq_refl eq_refl)).
  cbn [negb].
  set (σ2 := set_bus _ σ1).
  assert (Hv2 : valid σ2) by exact Hvalid.
  destruct (ReadData_complete n σ2 d Hn Hv2 Hd Hlen)
    as [σ3 [Hrun [Hv3 [Hm3 [Hn3 [Ha3 [Hc3 [Hbuf [Hcalls _]]]]]]]]].
  rewrite Hok in Hrun.
  rewrite (bind_run _ _ _ _ _ Hrun). cbn [negb].
  destruct (ids_after_read c4 c2 pid serial σ3 Hv3)
    as [σ' [Htail [Hv' [Hs' [Hb' [Hpid [Hserial Hframe]]]]]]].
  exists σ'. split; [exact Htail |]. split; [exact Hv' |].
  rewrite Hs', Hb'.
  split; [exact Hn3 |]. split; [exact Ha3 |]. split; [exact Hc3 |].
  split.
  { rewrite Hcalls. subst σ2 σ1. cbn [bus set_bus self Wire.calls addr fst snd ReadInfo1 ReadInfo2].
    rewrite <- !app_assoc. reflexivity. }
  unfold buffer_byte in Hpid, Hserial. rewrite Hbuf in Hpid, Hserial.
  cbv zeta. split; [exact Hpid |]. split; [exact Hserial |].
  intros q Hp Hs. rewrite (Hframe q Hp Hs), Hm3. reflexivity.
Qed.

(** X3. The product identifier and the serial number through
    [ReadProductID].  When the bus accepts both information commands and
    delivers the words asked for, all correct, [ReadProductID] returns
    success and the object behind [pid] holds the identifier the sensor
    sent.  The object behind [serial] does not hold the serial number: of
    the four words read, two are the identifier, so it gets the first four
    bytes of the serial number, then the check byte of the fourth word,
    then three zero bytes. *)
Theorem ReadProductID_end_to_end (pid serial : Pointer) (σ : World) (wr er : list Z)
    (p0 p1 p2 p3 s0 s1 s2 s3 s4 s5 s6 s7 : Z) :
  valid σ ->
  Wire.writeResults (bus σ) = 2 :: 2 :: wr ->
  Wire.endResults (bus σ) = 0 :: 0 :: er ->
  hd [] (Wire.deviceData (bus σ)) = info_words p0 p1 p2 p3 s0 s1 s2 s3 s4 s5 s6 s7 ->
  is_uint8 p0 -> is_uint8 p1 -> is_uint8 p2 -> is_uint8 p3 ->
  is_uint8 s0 -> is_uint8 s1 -> is_uint8 s2 -> is_uint8 s3 ->
  exists σ',
    ReadProductID pid serial σ = Some (true, σ') /\
    (forall p, pid = Some p -> mem σ' p = big_endian [p0; p1; p2; p3]) /\
    (forall s, serial = Some s -> pid <> Some s ->
       mem σ' s = big_endian [s0; s1; s2; s3; crc_word s2 s3; 0; 0; 0]) /\
    (forall q, pid <> Some q -> serial <> Some q -> mem σ' q = mem σ q).
Proof.
  intros Hvalid Hwr Her Hdev H0 H1 H2 H3 H4 H5 H6 H7.
  assert (Hc01 : is_uint8 (crc_word p0 p1))
    by (apply crc_update_uint8; [apply crc_update_uint8; [unfold is_uint8; lia |] |]; assumption).
  assert (Hc23 : is_uint8 (crc_word p2 p3))
    by (apply crc_update_uint8; [apply crc_update_uint8; [unfold is_uint8; lia |] |]; assumption).
  assert (Hc45 : is_uint8 (crc_word s0 s1))
    by (apply crc_update_uint8; [apply crc_update_uint8; [unfold is_uint8; lia |] |]; assumption).
  assert (Hc67 : is_uint8 (crc_word s2 s3))
    by (apply crc_update_uint8; [apply crc_update_uint8; [unfold is_uint8; lia |] |]; assumption).
  destruct serial as [s |].
  - assert (Hd : Wire.delivered (3 * 4) (bus σ) =
                 word p0 p1 ++ word p2 p3 ++ word s0 s1 ++ word s2 s3).
    { unfold Wire.delivered. rewrite Hdev.
      change (Z.to_nat (3 * 4)) with 12%nat.
      cbn [info_words word app map firstn].
      rewrite !to_uint8_id by assumption. reflexivity. }
    destruct (product_id_run 4 true true pid (Some s) σ wr er _ ltac:(lia) Hvalid Hwr Her
                Hd eq_refl)
      as [σ' [Hrun [_ [_ [_ [_ [_ Hvals]]]]]]].
    { cbn [word app words_ok]. rewrite !Z.eqb_refl. reflexivity. }
    cbv zeta in Hvals. destruct Hvals as [Hpid [Hserial Hframe]].
    exists σ'. split; [exact Hrun |].
    split; [exact (Hpid eq_refl) |].
    split; [exact (Hserial eq_refl) | exact Hframe].
  - assert (Hd : Wire.delivered (3 * 2) (bus σ) = word p0 p1 ++ word p2 p3).
    { unfold Wire.delivered. rewrite Hdev.
      change (Z.to_nat (3 * 2)) with 6%nat.
      cbn [info_words word app map firstn].
      rewrite !to_uint8_id by assumption. reflexivity. }
    destruct (product_id_run 2 false true pid None σ wr er _ ltac:(lia) Hvalid Hwr Her
                Hd eq_refl)
      as [σ' [Hrun [_ [_ [_ [_ [_ Hvals]]]]]]].
    { cbn [word app words_ok]. rewrite !Z.eqb_refl. reflexivity. }
    cbv zeta in Hvals. destruct Hvals as [Hpid [_ Hframe]].
    exists σ'. split; [exact Hrun |].
    split; [exact (Hpid eq_refl) |].
    split; [intros s Hs; discriminate Hs | exact Hframe].
Qed.

Lemma ReadProductID_end_to_end_witness :
  let σ := world_sdp31_serial in
  valid σ /\
  exists σ',
    ReadProductID (Some 1%N) (Some 2%N) σ = Some (true, σ') /\
    mem σ' 1%N = 0x03010188 /\
    mem σ' 2%N = big_endian [0xA1; 0xA2; 0xA3; 0xA4; crc_word 0xA3 0xA4; 0; 0; 0] /\
    mem σ' 3%N = mem σ 3%N.
Proof.
  cbv zeta.
  assert (Hv : valid world_sdp31_serial).
  { split; [reflexivity |]. simpl. repeat constructor; unfold is_uint8; lia. }
  split; [exact Hv |].
  destruct (ReadProductID_end_to_end (Some 1%N) (Some 2%N) world_sdp31_serial [] []
              0x03 0x01 0x01 0x88 0xA1 0xA2 0xA3 0xA4 0xA5 0xA6 0xA7 0xA8
              Hv eq_refl eq_refl eq_refl
              ltac:(unfold is_uint8; lia) ltac:(unfold is_uint8; lia)
              ltac:(unfold is_uint8; lia) ltac:(unfold is_uint8; lia)
              ltac:(unfold is_uint8; lia) ltac:(unfold is_uint8; lia)
              ltac:(unfold is_uint8; lia) ltac:(unfold is_uint8; lia))
    as [σ' [Hrun [Hpid [Hserial Hframe]]]].
  exists σ'. split; [exact Hrun |].
  split; [| split].
  - rewrite (Hpid 1%N eq_refl). reflexivity.
  - exact (Hserial 2%N eq_refl ltac:(discriminate)).
  - apply Hframe; discriminate.
Defined.

(** X4. The later revision reads six words for a serial number.  When the
    bus accepts both information commands and delivers the words asked
    for, all correct, [readProductID] returns success, the object behind
    [pid] holds the identifier and the object behind [serial] the whole
    serial number the sensor sent. *)
Theorem readProductID_end_to_end (pid serial : Pointer) (σ : World) (wr er : list Z)
    (p0 p1 p2 p3 s0 s1 s2 s3 s4 s5 s6 s7 : Z) :
  valid σ ->
  Wire.writeResults (bus σ) = 2 :: 2 :: wr ->
  Wire.endResults (bus σ) = 0 :: 0 :: er ->
  hd [] (Wire.deviceData (bus σ)) = info_words p0 p1 p2 p3 s0 s1 s2 s3 s4 s5 s6 s7 ->
  Forall is_uint8 [p0; p1; p2; p3; s0; s1; s2; s3; s4; s5; s6; s7] ->
  exists σ',
    readProductID pid serial σ = Some (true, σ') /\
    (forall p, pid = Some p -> mem σ' p = big_endian [p0; p1; p2; p3]) /\
    (forall s, serial = Some s -> pid <> Some s ->
       mem σ' s = big_endian [s0; s1; s2; s3; s4; s5; s6; s7]) /\
    (forall q, pid <> Some q -> serial <> Some q -> mem σ' q = mem σ q).
Proof.
  intros Hvalid Hwr Her Hdev Hbytes.
  repeat (match goal with H : Forall _ (_ :: _) |- _ =>
            inversion H; clear H; subst end).
  assert (Hcrc : forall x y, is_uint8 x -> is_uint8 y -> is_uint8 (crc_word x y)).
  { intros x y Hx Hy.
    apply crc_update_uint8; [apply crc_update_uint8; [unfold is_uint8; lia |] |]; assumption. }
  destruct serial as [s |].
  - assert (Hd : Wire.delivered (3 * 6) (bus σ) =
                 info_words p0 p1 p2 p3 s0 s1 s2 s3 s4 s5 s6 s7).
    { unfold Wire.delivered. rewrite Hdev.
      change (Z.to_nat (3 * 6)) with 18%nat.
      cbn [info_words word app map firstn].
      rewrite !to_uint8_id by (try apply Hcrc; assumption). reflexivity. }
    destruct (product_id_run 6 true true pid (Some s) σ wr er _ ltac:(lia) Hvalid Hwr Her
                Hd eq_refl)
      as [σ' [Hrun [_ [_ [_ [_ [_ Hvals]]]]]]].
    { cbn [info_words word app words_ok]. rewrite !Z.eqb_refl. reflexivity. }
    cbv zeta in Hvals. destruct Hvals as [Hpid [Hserial Hframe]].
    exists σ'. split; [exact Hrun |].
    split; [exact (Hpid eq_refl) |].
    split; [exact (Hserial eq_refl) | exact Hframe].
  - assert (Hd : Wire.delivered (3 * 2) (bus σ) = word p0 p1 ++ word p2 p3).
    { unfold Wire.delivered. rewrite Hdev.
      change (Z.to_nat (3 * 2)) with 6%nat.
      cbn [info_words word app map firstn].
      rewrite !to_uint8_id by (try apply Hcrc; assumption). reflexivity. }
    destruct (product_id_run 2 false true pid None σ wr er _ ltac:(lia) Hvalid Hwr Her
                Hd eq_refl)
      as [σ' [Hrun [_ [_ [_ [_ [_ Hvals]]]]]]].
    { cbn [word app words_ok]. rewrite !Z.eqb_refl. reflexivity. }
    cbv zeta in Hvals. destruct Hvals as [Hpid [_ Hframe]].
    exists σ'. split; [exact Hrun |].
    split; [exact (Hpid eq_refl) |].
    split; [intros s Hs; discriminate Hs | exact Hframe].
Qed.

Lemma readProductID_end_to_end_witness :
  let σ := world_sdp31_serial in
  valid σ /\
  exists σ',
    readProductID (Some 1%N) (Some 2%N) σ = Some (true, σ') /\
    mem σ' 1%N = 0x03010188 /\
    mem σ' 2%N = 0xA1A2A3A4A5A6A7A8.
Proof.
  cbv zeta.
  assert (Hv : valid world_sdp31_serial).
  { split; [reflexivity |]. simpl. repeat constructor; unfold is_uint8; lia. }
  split; [exact Hv |].
  destruct (readProductID_end_to_end (Some 1%N) (Some 2%N) world_sdp31_serial [] []
              0x03 0x01 0x01 0x88 0xA1 0xA2 0xA3 0xA4 0xA5 0xA6 0xA7 0xA8
              Hv eq_refl eq_refl eq_refl
              ltac:(repeat constructor; unfold is_uint8; lia))
    as [σ' [Hrun [Hpid [Hserial _]]]].
  exists σ'. split; [exact Hrun |].
  split.
  - rewrite (Hpid 1%N eq_refl). reflexivity.
  - rewrite (Hserial 2%N eq_refl ltac:(discriminate)). reflexivity.
Defined.

(** X5. Model detection from the wire.  When the bus accepts both
    information commands and delivers the two words of a product
    identifier, both correct, [Begin] returns success exactly for the
    identifiers 0x03010188 and 0x03010288; it then sets [number] to [SDP31]
    or [SDP32], so that [GetPressureScale] is 60 or 240.  For every other
    identifier it returns failure and [number], and with it the pressure
    scale, is what it was.  [addr] and [comp] are never changed. *)
Theorem Begin_end_to_end (modelNumber : N) (σ : World) (wr er : list Z)
    (p0 p1 p2 p3 : Z) :
  valid σ ->
  Wire.writeResults (bus σ) = 2 :: 2 :: wr ->
  Wire.endResults (bus σ) = 0 :: 0 :: er ->
  Wire.delivered 6 (bus σ) = word p0 p1 ++ word p2 p3 ->
  let id := big_endian [p0; p1; p2; p3] in
  exists σ',
    Begin modelNumber σ = Some ((id =? 0x03010188) || (id =? 0x03010288), σ') /\
    number (self σ') =
      (if id =? 0x03010188 then SDP31
       else if id =? 0x03010288 then SDP32 else number (self σ)) /\
    GetPressureScale (self σ') =
      (if id =? 0x03010188 then 60
       else if id =? 0x03010288 then 240 else GetPressureScale (self σ)) /\
    addr (self σ') = addr (self σ) /\ comp (self σ') = comp (self σ).
Proof.
  intros Hvalid Hwr Her Hd id.
  destruct (product_id_run 2 false true (Some modelNumber) None σ wr er _
              ltac:(lia) Hvalid Hwr Her Hd eq_refl)
    as [σ1 [Hrun [_ [Hnum [Haddr [Hcomp [_ Hvals]]]]]]].
  { cbn [word app words_ok]. rewrite !Z.eqb_refl. reflexivity. }
  cbv zeta in Hvals. destruct Hvals as [Hpid _].
  pose proof (Hpid eq_refl modelNumber eq_refl) as Hid.
  change (mem σ1 modelNumber = id) in Hid.
  assert (Hread : ReadProductID (Some modelNumber) None σ = Some (true, σ1)) by exact Hrun.
  unfold Begin. rewrite (bind_run _ _ _ _ _ Hread). cbn [negb].
  unfold bind, load, set_number, ret. cbv beta iota. rewrite Hid.
  change SDP31_PID with 0x03010188. change SDP32_PID with 0x03010288.
  unfold GetPressureScale.
  destruct (id =? 0x03010188) eqn:E1; [| destruct (id =? 0x03010288) eqn:E2].
  - eexists. split; [reflexivity |]. cbn [self number addr comp orb].
    repeat split; assumption || reflexivity.
  - eexists. split; [reflexivity |]. cbn [self number addr comp orb].
    repeat split; assumption || reflexivity.
  - exists σ1. split; [reflexivity |]. rewrite Hnum.
    repeat split; assumption || reflexivity.
Qed.

Lemma Begin_end_to_end_witness :
  let σ := world_with DiffPressure [2; 2] [0; 0] [word 0x03 0x01 ++ word 0x02 0x88] in
  valid σ /\
  exists σ',
    Begin 0%N σ = Some (true, σ') /\
    number (self σ') = SDP32 /\ GetPressureScale (self σ') = 240.
Proof.
  cbv zeta.
  set (σ := world_with DiffPressure [2; 2] [0; 0] [word 0x03 0x01 ++ word 0x02 0x88]).
  assert (Hv : valid σ).
  { split; [reflexivity |]. simpl. repeat constructor; unfold is_uint8; lia. }
  split; [exact Hv |].
  destruct (Begin_end_to_end 0%N σ [] [] 0x03 0x01 0x02 0x88 Hv eq_refl eq_refl eq_refl)
    as [σ' [Hrun [Hnum [Hscale _]]]].
  exists σ'. split; [exact Hrun |]. split; [exact Hnum | exact Hscale].
Defined.

(** ** What the check byte catches *)

Lemma CRC_LUT_pairs :
  forallb (fun i => forallb (table_pair_ok i) (seq 0 256)) (seq 0 256) = true.
Proof. vm_compute. reflexivity. Qed.

Lemma CRC_LUT_at_injective (i j : Z) :
  is_uint8 i -> is_uint8 j -> CRC_LUT_at i = CRC_LUT_at j -> i = j.
Proof.
  unfold is_uint8. intros Hi Hj Heq.
  pose proof CRC_LUT_pairs as Hall.
  rewrite forallb_forall in Hall.
  specialize (Hall (Z.to_nat i) ltac:(apply in_seq; lia)).
  rewrite forallb_forall in Hall.
  specialize (Hall (Z.to_nat j) ltac:(apply in_seq; lia)).
  unfold table_pair_ok in Hall. rewrite !Z2Nat.id in Hall by lia.
  rewrite Heq, Z.eqb_refl in Hall. cbn [implb] in Hall.
  apply Nat.eqb_eq in Hall. lia.
Qed.

Lemma lxor_cancel_l (a b c : Z) : Z.lxor a b = Z.lxor a c -> b = c.
Proof.
  intros H. apply (f_equal (Z.lxor a)) in H.
  rewrite <- !Z.lxor_assoc, Z.lxor_nilpotent, !Z.lxor_0_l in H. exact H.
Qed.

Lemma crc_update_injective_byte (crc b b' : Z) :
  is_uint8 crc -> is_uint8 b -> is_uint8 b' ->
  crc_update crc b = crc_update crc b' -> b = b'.
Proof.
  intros Hc Hb Hb' H. unfold crc_update in H.
  apply CRC_LUT_at_injective in H; try (apply lxor_uint8; assumption).
  exact (lxor_cancel_l _ _ _ H).
Qed.

Lemma crc_update_injective_crc (crc crc' b : Z) :
  is_uint8 crc -> is_uint8 crc' -> is_uint8 b ->
  crc_update crc b = crc_update crc' b -> crc = crc'.
Proof.
  intros Hc Hc' Hb H. unfold crc_update in H.
  apply CRC_LUT_at_injective in H; try (apply lxor_uint8; assumption).
  rewrite (Z.lxor_comm crc), (Z.lxor_comm crc') in H.
  exact (lxor_cancel_l _ _ _ H).
Qed.

(** Two words with the same check value that agree in one payload byte
    agree in the other. *)
Lemma crc_word_one_byte (b0 b1 b0' b1' : Z) :
  is_uint8 b0 -> is_uint8 b1 -> is_uint8 b0' -> is_uint8 b1' ->
  crc_word b0 b1 = crc_word b0' b1' ->
  (b0 = b0' -> b1 = b1') /\ (b1 = b1' -> b0 = b0').
Proof.
  intros H0 H1 H0' H1' Heq. unfold crc_word in Heq.
  assert (HFF : is_uint8 0xFF) by (unfold is_uint8; lia).
  split.
  - intros ->. eapply crc_update_injective_byte; [| | | exact Heq];
      try assumption. apply crc_update_uint8; assumption.
  - intros ->.
    apply crc_update_injective_crc in Heq;
      try assumption; try (apply crc_update_uint8; assumption).
    eapply crc_update_injective_byte; [| | | exact Heq]; assumption.
Qed.

Lemma words_ok_app (k : nat) : forall pre rest,
  length pre = (3 * k)%nat -> words_ok (pre ++ rest) = words_ok pre && words_ok rest.
Proof.
  induction k as [| k IH]; intros pre rest Hlen.
  - destruct pre; [reflexivity | discriminate Hlen].
  - replace (3 * S k)%nat with (S (S (S (3 * k)))) in Hlen by lia.
    destruct pre as [| b0 [| b1 [| c pre]]]; try discriminate Hlen.
    cbn [app words_ok]. rewrite IH by (simpl in Hlen; lia).
    rewrite andb_assoc. reflexivity.
Qed.

(** X6. A read in which one byte of one word was changed on the way fails.
    Take any word [b0 b1 c] that the sensor sent with its check value
    [c]; if the bytes received for it differ from it in exactly one of
    the three positions, [ReadData] returns failure, whatever the other
    words are. *)
Theorem ReadData_rejects_corrupted_byte (n : Z) (σ : World) (pre post : list Z)
    (b0 b1 b0' b1' c' : Z) :
  1 <= n <= 6 -> valid σ ->
  Wire.delivered (3 * n) (bus σ) = pre ++ [b0'; b1'; c'] ++ post ->
  (length pre mod 3 = 0)%nat ->
  is_uint8 b0 -> is_uint8 b1 ->
  (b0' <> b0 /\ b1' = b1 /\ c' = crc_word b0 b1) \/
  (b0' = b0 /\ b1' <> b1 /\ c' = crc_word b0 b1) \/
  (b0' = b0 /\ b1' = b1 /\ c' <> crc_word b0 b1) ->
  exists σ', ReadData n σ = Some (false, σ').
Proof.
  intros Hn Hvalid Hd Hpre H0 H1 Hcorrupt.
  pose proof (delivered_uint8 (3 * n) (bus σ)) as Hbytes. rewrite Hd in Hbytes.
  apply Forall_app in Hbytes. destruct Hbytes as [_ Hbytes].
  cbn [app] in Hbytes.
  inversion Hbytes as [| ? ? H0' Hb1]; subst.
  inversion Hb1 as [| ? ? H1' Hb2]; subst. clear Hbytes Hb1 Hb2.
  assert (Hword : (crc_word b0' b1' =? c') = false).
  { apply Z.eqb_neq. intros Heq.
    destruct Hcorrupt as [[Hne [-> ->]] | [[-> [Hne ->]] | [-> [-> Hne]]]].
    - apply Hne. symmetry.
      exact (proj2 (crc_word_one_byte b0 b1 b0' b1 H0 H1 H0' H1 (eq_sym Heq)) eq_refl).
    - apply Hne. symmetry.
      exact (proj1 (crc_word_one_byte b0 b1 b0 b1' H0 H1 H0 H1' (eq_sym Heq)) eq_refl).
    - apply Hne. symmetry. exact Heq. }
  destruct (Z.eqb_spec (Z.of_nat (length (Wire.delivered (3 * n) (bus σ)))) (3 * n))
    as [Hlen | Hlen].
  - rewrite (ReadData_exact n σ _ Hn Hvalid eq_refl Hlen). rewrite Hd.
    rewrite (words_ok_app (length pre / 3) pre)
      by (pose proof (Nat.div_mod_eq (length pre) 3); lia).
    cbn [app words_ok]. rewrite Hword, andb_false_r. eexists. reflexivity.
  - pose proof (ReadData_run n σ Hvalid) as Hrun. cbv zeta in Hrun.
    rewrite (request_quantity n) in Hrun by lia.
    pose proof (delivered_length (3 * n) (bus σ) ltac:(lia)) as Hle.
    destruct Hrun as [buf [Hrun _]]; [lia_div |].
    apply Z.eqb_neq in Hlen. rewrite Hlen, crc_scan_false in Hrun.
    eexists. exact Hrun.
Qed.

Lemma ReadData_rejects_corrupted_byte_witness :
  let σ := world_with MassFlow [] [] [word 0x12 0x34 ++ [0xBE; 0xEE; 0x92]] in
  valid σ /\ crc_word 0xBE 0xEF = 0x92 /\
  exists σ', ReadData 2 σ = Some (false, σ').
Proof.
  cbv zeta.
  assert (Hv : valid (world_with MassFlow [] [] [word 0x12 0x34 ++ [0xBE; 0xEE; 0x92]])).
  { split; [reflexivity |]. simpl. repeat constructor; unfold is_uint8; lia. }
  split; [exact Hv |]. split; [reflexivity |].
  apply (ReadData_rejects_corrupted_byte 2 _ (word 0x12 0x34) [] 0xBE 0xEF 0xBE 0xEE 0x92
           ltac:(lia) Hv eq_refl eq_refl
           ltac:(unfold is_uint8; lia) ltac:(unfold is_uint8; lia)).
  right. left. split; [reflexivity |]. split; [discriminate | reflexivity].
Defined.

(** ** Edges of ReadData *)

Lemma read_bytes_false (read : nat) : forall next crc σ r σ',
  read_bytes read next crc false σ = Some (r, σ') -> r = false.
Proof.
  induction read as [| read IH]; intros next crc σ r σ' H.
  - cbn [read_bytes] in H. unfold ret in H. congruence.
  - cbn [read_bytes] in H. unfold bind in H. unfold Wire_read, on_bus in H.
    destruct (poke next _ _) as [[[] σ1] |]; [| discriminate H].
    destruct (peek next σ1) as [[stored σ2] |]; [| discriminate H].
    destruct (Z.of_nat (S read) mod 3 =? 1); exact (IH _ _ _ _ _ H).
Qed.

(** X7. [ReadData] cannot succeed for 86 words or more: the number of bytes
    it asks for is cut to 8 bits, [(uint8_t)(words * 3)], so fewer than
    [3 * words] bytes arrive and the count never matches. *)
Theorem ReadData_too_many_words (n : Z) (σ : World) :
  86 <= n <= 255 -> forall σ', ReadData n σ <> Some (true, σ').
Proof.
  intros Hn σ' H. unfold ReadData in H. unfold bind at 1 in H.
  destruct (clear_buffer 12 σ) as [[[] σc] |]; [| discriminate H].
  unfold bind at 1 in H. unfold this at 1 in H. unfold bind at 1 in H.
  unfold Wire_requestFrom, on_bus in H. cbn [fst snd Wire.requestFrom] in H.
  assert (Hq : 0 <= to_uint8 (n * 3) < 256) by apply to_uint8_range.
  pose proof (delivered_length (to_uint8 (n * 3)) (bus σc) ltac:(lia)) as Hle.
  replace (Z.of_nat (length (Wire.delivered (to_uint8 (n * 3)) (bus σc))) =? 3 * n)
    with false in H by (symmetry; apply Z.eqb_neq; lia).
  cbn [negb] in H. apply read_bytes_false in H. discriminate H.
Qed.

Lemma ReadData_too_many_words_witness :
  let σ := world_with MassFlow [] [] [repeat 0xFF 300] in
  86 <= 86 <= 255 /\
  Wire.delivered (to_uint8 (86 * 3)) (bus σ) = [0xFF; 0xFF] /\
  (exists σ', ReadData 86 σ = Some (false, σ')) /\
  forall σ', ReadData 86 σ <> Some (true, σ').
Proof.
  cbv zeta. split; [lia |]. split; [reflexivity |].
  split; [eexists; vm_compute; reflexivity |].
  exact (ReadData_too_many_words 86 _ ltac:(lia)).
Defined.

(** X8. [ReadData 0] asks the bus for no byte, reads none and returns
    success; the buffer is cleared from index 1 on and keeps element 0. *)
Theorem ReadData_no_words (σ : World) :
  valid σ ->
  exists σ',
    ReadData 0 σ = Some (true, σ') /\
    Wire.calls (bus σ') = Wire.calls (bus σ) ++ [Wire.CallRequest (addr (self σ)) 0] /\
    buffer (self σ') = hd 0 (buffer (self σ)) :: repeat 0 12 /\
    mem σ' = mem σ.
Proof.
  intros Hvalid. pose proof (valid_length σ Hvalid) as Hlen.
  unfold ReadData. unfold bind at 1. rewrite (clear_buffer_run σ Hlen).
  eexists. split; [reflexivity |]. repeat split; reflexivity.
Qed.

Lemma ReadData_no_words_witness :
  let σ := world_with MassFlow [] [] [word 0xBE 0xEF] in
  valid σ /\
  exists σ',
    ReadData 0 σ = Some (true, σ') /\
    Wire.calls (bus σ') = Wire.calls (bus σ) ++ [Wire.CallRequest (addr (self σ)) 0] /\
    buffer (self σ') = hd 0 (buffer (self σ)) :: repeat 0 12 /\
    mem σ' = mem σ.
Proof.
  cbv zeta.
  assert (Hv : valid (world_with MassFlow [] [] [word 0xBE 0xEF])).
  { split; [reflexivity |]. simpl. repeat constructor; unfold is_uint8; lia. }
  split; [exact Hv |]. exact (ReadData_no_words _ Hv).
Defined.

(** ** The commands *)

(** X9. With a compensation mode that is neither [MassFlow] nor
    [DiffPressure] (the [default] branch), [StartContinuous] and
    [TriggerMeasurement] return failure and do nothing: no call reaches
    the bus. *)
Theorem mode_commands_unknown_mode (flag : bool) (σ : World) :
  comp (self σ) <> MassFlow -> comp (self σ) <> DiffPressure ->
  StartContinuous flag σ = Some (false, σ) /\
  TriggerMeasurement flag σ = Some (false, σ).
Proof.
  intros Hm Hd. apply Z.eqb_neq in Hm, Hd.
  unfold StartContinuous, TriggerMeasurement, bind, this.
  rewrite Hm, Hd. split; reflexivity.
Qed.

Lemma mode_commands_unknown_mode_witness :
  let σ := world_with 2 [2] [0] [] in
  comp (self σ) <> MassFlow /\ comp (self σ) <> DiffPressure /\
  StartContinuous true σ = Some (false, σ) /\
  TriggerMeasurement true σ = Some (false, σ).
Proof.
  cbv zeta.
  assert (H1 : comp (self (world_with 2 [2] [0] [])) <> MassFlow) by discriminate.
  assert (H2 : comp (self (world_with 2 [2] [0] [])) <> DiffPressure) by discriminate.
  split; [exact H1 | split; [exact H2 |]].
  exact (mode_commands_unknown_mode true _ H1 H2).
Defined.

(** X10. [StopContinuous] makes one write transaction to the address of the
    driver with the bytes 0x3F 0xF9, whatever the compensation mode, and
    returns success if and only if [write] took 2 bytes and
    [endTransmission] returned status 0. *)
Theorem StopContinuous_sends (σ : World) :
  sends StopContinuous σ (addr (self σ)) [0x3F; 0xF9] /\
  exists σ',
    StopContinuous σ =
      Some ((hd 4 (Wire.endResults (bus σ)) =? 0) &&
            (hd 0 (Wire.writeResults (bus σ)) =? 2), σ').
Proof.
  unfold sends, StopContinuous. rewrite WriteCommand_run.
  split; [eexists _, _; split; reflexivity | eexists; reflexivity].
Qed.

(** X11. The commands never ask the sensor for a byte and keep their hands
    off the buffer: [StartContinuous], [StopContinuous],
    [TriggerMeasurement], [Reset] and [reset] always return, leave the
    driver object (the buffer with it) and the memory of the caller as
    they were, and call nothing on the bus but [beginTransmission],
    [write] and [endTransmission]. *)
Theorem commands_only_write (flag : bool) (σ : World) :
  only_writes (StartContinuous flag) σ /\
  only_writes StopContinuous σ /\
  only_writes (TriggerMeasurement flag) σ /\
  only_writes Reset σ /\
  only_writes reset σ.
Proof.
  assert (Hw : forall cmd, only_writes (WriteCommand cmd) σ).
  { intros cmd. unfold only_writes. rewrite WriteCommand_run.
    eexists _, _, _. repeat split; reflexivity. }
  assert (Hf : only_writes (ret false) σ).
  { unfold only_writes, ret. exists false, σ, [].
    rewrite app_nil_r. repeat split; reflexivity. }
  split; [| split; [| split; [| split]]].
  - unfold StartContinuous, only_writes, bind, this.
    destruct (comp (self σ) =? MassFlow); [destruct flag; apply Hw |].
    destruct (comp (self σ) =? DiffPressure); [destruct flag; apply Hw | apply Hf].
  - apply Hw.
  - unfold TriggerMeasurement, only_writes, bind, this.
    destruct (comp (self σ) =? MassFlow); [destruct flag; apply Hw |].
    destruct (comp (self σ) =? DiffPressure); [destruct flag; apply Hw | apply Hf].
  - unfold only_writes, Reset, bind, ret, Wire_beginTransmission, Wire_write,
      Wire_endTransmission, on_bus. cbn [fst snd bus set_bus self mem].
    destruct (negb _);
      eexists _, _, [Wire.CallBegin (fst SoftReset); Wire.CallWrite [snd SoftReset];
                     Wire.CallEnd];
      (split; [reflexivity |]); (split; [reflexivity |]); (split; [reflexivity |]);
      (split; [| reflexivity]);
      cbn [bus Wire.calls Wire.beginTransmission Wire.write Wire.endTransmission snd];
      rewrite <- !app_assoc; reflexivity.
  - unfold only_writes, reset, bind, ret, Wire_beginTransmission, Wire_write,
      Wire_endTransmission, on_bus. cbn [fst snd bus set_bus self mem].
    eexists _, _, [Wire.CallBegin (fst SoftReset); Wire.CallWrite [snd SoftReset];
                   Wire.CallEnd].
    (split; [reflexivity |]); (split; [reflexivity |]); (split; [reflexivity |]);
    (split; [| reflexivity]).
    cbn [bus Wire.calls Wire.beginTransmission Wire.write Wire.endTransmission snd].
    rewrite <- !app_assoc. reflexivity.
Qed.

(** X12. The two revisions of the soft reset agree: [reset], which returns
    [(written == 1) && (status == 0)], and [Reset], which tests the status
    first, give the same result and the same bus in every world. *)
Theorem reset_is_Reset (σ : World) : reset σ = Reset σ.
Proof.
  destruct σ as [s [c rx wr er dd] m].
  unfold reset, Reset, bind, ret, Wire_beginTransmission, Wire_write,
    Wire_endTransmission, on_bus. simpl.
  destruct (hd 4 er =? 0); cbn [negb];
    [rewrite andb_true_r | rewrite andb_false_r]; reflexivity.
Qed.

(** ** The array bound and the configuration *)

Lemma product_id_total (n : Z) (c4 c2 : bool) (pid serial : Pointer) (σ : World) :
  0 <= n <= 6 -> valid σ ->
  exists ok σ',
    (ok1 <- WriteCommand ReadInfo1 ;;
     if negb ok1 then ret false else
     ok2 <- WriteCommand ReadInfo2 ;;
     if negb ok2 then ret false else
     ok <- ReadData n ;;
     if negb ok then ret false else
     when c4 (if_not_null serial (fun p => shift_in_bytes to_uint64 p 4 8)) ;;
     when c2 (if_not_null pid (fun p => shift_in_bytes to_uint32 p 0 4)) ;;
     ret true) σ = Some (ok, σ') /\
    configuration_kept σ σ' /\ number (self σ') = number (self σ).
Proof.
  intros Hn Hvalid.
  destruct (WriteCommand_returns ReadInfo1 σ) as [ok1 [σ1 [Hrun1 [Hs1 _]]]].
  rewrite (bind_run _ _ _ _ _ Hrun1).
  assert (Hv1 : valid σ1) by (destruct Hvalid; split; rewrite Hs1; assumption).
  destruct ok1; cbn [negb];
    [| exists false, σ1; split; [reflexivity |];
       split; [split; [exact Hv1 | split; congruence] | congruence]].
  destruct (WriteCommand_returns ReadInfo2 σ1) as [ok2 [σ2 [Hrun2 [Hs2 _]]]].
  rewrite (bind_run _ _ _ _ _ Hrun2).
  assert (Hv2 : valid σ2) by (destruct Hv1; split; rewrite Hs2; assumption).
  destruct ok2; cbn [negb];
    [| exists false, σ2; split; [reflexivity |];
       split; [split; [exact Hv2 | split; congruence] | congruence]].
  destruct (ReadData_returns n σ2 Hn Hv2)
    as [ok3 [σ3 [Hrun3 [Hv3 [_ [Hn3 [Ha3 [Hc3 _]]]]]]]].
  rewrite (bind_run _ _ _ _ _ Hrun3).
  rewrite Hs2, Hs1 in Hn3, Ha3, Hc3.
  destruct ok3; cbn [negb];
    [| exists false, σ3; split; [reflexivity |];
       split; [split; [exact Hv3 | split; assumption] | assumption]].
  destruct (ids_after_read c4 c2 pid serial σ3 Hv3)
    as [σ' [Htail [Hv' [Hs' _]]]].
  exists true, σ'. split; [exact Htail |].
  split; [split; [exact Hv' | split; congruence] | congruence].
Qed.

(** X13. Every method that reads stays inside [buffer[13]] and keeps the
    configuration: in a world whose buffer is an array of 13 bytes,
    [GetMeasurement], [ReadProductID], [readProductID] and [Begin] return,
    the buffer is still an array of 13 bytes (no store has gone past its
    end), and [addr] and [comp] are unchanged; only [Begin] can change
    [number]. *)
Theorem reading_methods_stay_in_bounds
    (pressure temp scale pid serial : Pointer) (modelNumber : N) (σ : World) :
  valid σ ->
  (exists ok σ', GetMeasurement pressure temp scale σ = Some (ok, σ') /\
                 configuration_kept σ σ' /\ number (self σ') = number (self σ)) /\
  (exists ok σ', ReadProductID pid serial σ = Some (ok, σ') /\
                 configuration_kept σ σ' /\ number (self σ') = number (self σ)) /\
  (exists ok σ', readProductID pid serial σ = Some (ok, σ') /\
                 configuration_kept σ σ' /\ number (self σ') = number (self σ)) /\
  (exists ok σ', Begin modelNumber σ = Some (ok, σ') /\ configuration_kept σ σ').
Proof.
  intros Hvalid. split; [| split; [| split]].
  - destruct (ReadData_returns (match scale, temp with
                                | Some _, _ => 3
                                | None, Some _ => 2
                                | None, None => 1
                                end) σ ltac:(destruct scale, temp; lia) Hvalid)
      as [ok [σ1 [Hrun [Hv1 [_ [Hn1 [Ha1 [Hc1 _]]]]]]]].
    destruct (GetMeasurement_after_read pressure temp scale σ σ1 ok Hrun Hv1)
      as [σ' [Hget [Hv' [Hs' _]]]].
    exists ok, σ'. split; [exact Hget |].
    split; [split; [exact Hv' | split; congruence] | congruence].
  - destruct serial as [s |].
    + exact (product_id_total 4 true true pid (Some s) σ ltac:(lia) Hvalid).
    + exact (product_id_total 2 false true pid None σ ltac:(lia) Hvalid).
  - destruct serial as [s |].
    + exact (product_id_total 6 true true pid (Some s) σ ltac:(lia) Hvalid).
    + exact (product_id_total 2 false true pid None σ ltac:(lia) Hvalid).
  - destruct (product_id_total 2 false true (Some modelNumber) None σ ltac:(lia) Hvalid)
      as [ok [σ1 [Hrun [[Hv1 [Ha1 Hc1]] _]]]].
    assert (Hread : ReadProductID (Some modelNumber) None σ = Some (ok, σ1)) by exact Hrun.
    unfold Begin. rewrite (bind_run _ _ _ _ _ Hread).
    destruct ok; cbn [negb];
      [| exists false, σ1; split; [reflexivity | split; [exact Hv1 | split; assumption]]].
    unfold bind, load, set_number, ret. cbv beta iota.
    destruct (mem σ1 modelNumber =? SDP31_PID);
      [| destruct (mem σ1 modelNumber =? SDP32_PID)];
      eexists _, _; (split; [reflexivity |]);
      (split; [exact Hv1 | split; assumption]).
Qed.

Lemma reading_methods_stay_in_bounds_witness :
  let σ := world_sdp31_serial in
  valid σ /\
  (exists ok σ', GetMeasurement (Some 1%N) (Some 2%N) (Some 3%N) σ = Some (ok, σ') /\
                 configuration_kept σ σ' /\ number (self σ') = number (self σ)) /\
  (exists ok σ', ReadProductID (Some 1%N) (Some 2%N) σ = Some (ok, σ') /\
                 configuration_kept σ σ' /\ number (self σ') = number (self σ)) /\
  (exists ok σ', readProductID (Some 1%N) (Some 2%N) σ = Some (ok, σ') /\
                 configuration_kept σ σ' /\ number (self σ') = number (self σ)) /\
  (exists ok σ', Begin 0%N σ = Some (ok, σ') /\ configuration_kept σ σ').
Proof.
  cbv zeta.
  assert (Hv : valid world_sdp31_serial).
  { split; [reflexivity |]. simpl. repeat constructor; unfold is_uint8; lia. }
  split; [exact Hv |].
  exact (reading_methods_stay_in_bounds (Some 1%N) (Some 2%N) (Some 3%N)
           (Some 1%N) (Some 2%N) 0%N _ Hv).
Defined.

(** ** A command and the measurement after it *)

(** X14. Trigger, then read.  In either compensation mode, when the bus
    accepts the trigger command and the sensor then answers with one
    correct word [a b], [TriggerMeasurement] followed by [GetMeasurement]
    for the pressure alone both return success, the object behind
    [pressure] holds the signed 16-bit value of [a b], nothing else of the
    caller changes, and the bus has seen one write transaction, one request
    for 3 bytes and three reads, in this order. *)
Theorem measurement_after_trigger (stretching : bool) (p : N) (σ : World)
    (wr er : list Z) (a b : Z) :
  valid σ ->
  comp (self σ) = MassFlow \/ comp (self σ) = DiffPressure ->
  Wire.writeResults (bus σ) = 2 :: wr ->
  Wire.endResults (bus σ) = 0 :: er ->
  Wire.delivered 3 (bus σ) = word a b ->
  exists σ1 σ2 c0 c1,
    TriggerMeasurement stretching σ = Some (true, σ1) /\
    GetMeasurement (Some p) None None σ1 = Some (true, σ2) /\
    mem σ2 p = to_int16 (big_endian [a; b]) /\
    (forall q, q <> p -> mem σ2 q = mem σ q) /\
    Wire.calls (bus σ2) =
      Wire.calls (bus σ) ++
      [Wire.CallBegin (addr (self σ)); Wire.CallWrite [c0; c1]; Wire.CallEnd;
       Wire.CallRequest (addr (self σ)) 3;
       Wire.CallRead; Wire.CallRead; Wire.CallRead].
Proof.
  intros Hvalid Hcomp Hwr Her Hd.
  assert (Hcmd : exists cmd, TriggerMeasurement stretching σ = WriteCommand cmd σ).
  { unfold TriggerMeasurement, bind, this.
    destruct Hcomp as [-> | ->]; destruct stretching; eexists; reflexivity. }
  destruct Hcmd as [cmd Hcmd].
  pose proof (WriteCommand_accepted cmd σ wr er Hwr Her) as Hrun1.
  set (σ1 := set_bus _ σ) in Hrun1.
  assert (Hv1 : valid σ1) by exact Hvalid.
  destruct (ReadData_complete 1 σ1 (word a b) ltac:(lia) Hv1 Hd eq_refl)
    as [σr [Hread [Hvr [Hmr [_ [_ [_ [Hbuf [Hcalls _]]]]]]]]].
  cbn [word words_ok] in Hread. rewrite Z.eqb_refl in Hread. cbn [andb] in Hread.
  destruct (GetMeasurement_after_read (Some p) None None σ1 σr true Hread Hvr)
    as [σ2 [Hget [_ [_ [Hb2 [_ Hok]]]]]].
  destruct (Hok eq_refl) as [Hp [_ [_ Hframe]]].
  exists σ1, σ2, (fst cmd), (snd cmd).
  split; [rewrite Hcmd; exact Hrun1 |]. split; [exact Hget |].
  split; [| split].
  - rewrite (Hp p eq_refl). unfold buffer_byte. rewrite Hbuf. reflexivity.
  - intros q Hq. rewrite (Hframe q ltac:(congruence) ltac:(discriminate) ltac:(discriminate)).
    rewrite Hmr. reflexivity.
  - rewrite Hb2, Hcalls. subst σ1. cbn [bus set_bus self Wire.calls addr].
    rewrite <- app_assoc. reflexivity.
Qed.

Lemma measurement_after_trigger_witness :
  let σ := world_with DiffPressure [2] [0] [word 0xFF 0x38] in
  valid σ /\
  exists σ1 σ2,
    TriggerMeasurement false σ = Some (true, σ1) /\
    GetMeasurement (Some 7%N) None None σ1 = Some (true, σ2) /\
    mem σ2 7%N = -200.
Proof.
  cbv zeta.
  set (σ := world_with DiffPressure [2] [0] [word 0xFF 0x38]).
  assert (Hv : valid σ).
  { split; [reflexivity |]. simpl. repeat constructor; unfold is_uint8; lia. }
  split; [exact Hv |].
  destruct (measurement_after_trigger false 7%N σ [] [] 0xFF 0x38 Hv
              (or_intror eq_refl) eq_refl eq_refl eq_refl)
    as [σ1 [σ2 [c0 [c1 [Ht [Hg [Hm _]]]]]]].
  exists σ1, σ2. split; [exact Ht |]. split; [exact Hg |].
  rewrite Hm. reflexivity.
Defined.


(** ** More on ReadData and on the values stored *)

(** X15. For 1 to 6 words [ReadData] always empties the receive queue,
    whether it then reports success or failure: after the request it calls
    [read] once for every byte received, and nothing is left for a later
    call to find. *)
Theorem ReadData_always_drains (n : Z) (σ : World) :
  1 <= n <= 6 -> valid σ ->
  exists ok σ',
    ReadData n σ = Some (ok, σ') /\
    Wire.rxBuffer (bus σ') = [] /\
    Wire.calls (bus σ') =
      Wire.calls (bus σ) ++
      Wire.CallRequest (addr (self σ)) (3 * n) ::
      repeat Wire.CallRead (length (Wire.delivered (3 * n) (bus σ))).
Proof.
  intros Hn Hvalid.
  pose proof (ReadData_run n σ Hvalid) as Hrun. cbv zeta in Hrun.
  rewrite (request_quantity n) in Hrun by lia.
  pose proof (delivered_length (3 * n) (bus σ) ltac:(lia)) as Hle.
  destruct Hrun as [buf [Hrun _]]; [lia_div |].
  eexists _, _. split; [exact Hrun |]. split; reflexivity.
Qed.

Lemma ReadData_always_drains_witness :
  let σ := mkWorld (mkSDP3x 0 Address1 MassFlow (repeat 0 13))
                   (Wire.mkTwoWire [] [0x11; 0x22] [] [] [[0xBE; 0xEF; 0x00]])
                   (fun _ => 0) in
  1 <= 1 <= 6 /\ valid σ /\
  exists σ',
    ReadData 1 σ = Some (false, σ') /\ Wire.rxBuffer (bus σ') = [].
Proof.
  cbv zeta.
  set (σ := mkWorld (mkSDP3x 0 Address1 MassFlow (repeat 0 13))
                    (Wire.mkTwoWire [] [0x11; 0x22] [] [] [[0xBE; 0xEF; 0x00]])
                    (fun _ => 0)).
  assert (Hv : valid σ).
  { split; [reflexivity |]. simpl. repeat constructor; unfold is_uint8; lia. }
  split; [lia | split; [exact Hv |]].
  destruct (ReadData_always_drains 1 σ ltac:(lia) Hv) as [ok [σ' [Hrun [Hrx _]]]].
  assert (Hx : exists σx, ReadData 1 σ = Some (false, σx))
    by (eexists; vm_compute; reflexivity).
  destruct Hx as [σx Hx]. rewrite Hx in Hrun.
  assert (ok = false) by congruence. assert (σ' = σx) by congruence. subst ok σ'.
  exists σx. split; [exact Hx | exact Hrx].
Defined.

(** ** The reach of the reading loop *)

(** The last store of a loop that reads [S read] bytes, the first of them
    going to index [next], is at index [next + S read - (S read + 2) / 3]:
    [next] moves on for two bytes in three. *)
Lemma read_bytes_reach (read : nat) : forall next crc success σ ok σ',
  read_bytes (S read) next crc success σ = Some (ok, σ') ->
  Z.of_nat next + Z.of_nat (S read) - (Z.of_nat (S read) + 2) / 3
    < Z.of_nat (length (buffer (self σ'))).
Proof.
  induction read as [| read IH]; intros next crc success σ ok σ' Hrun.
  - destruct (read_bytes_unfold 0 next crc success σ) as [buf [_ [Hnext Hstep]]].
    cbv zeta in Hstep. rewrite Hstep in Hrun.
    change (Z.of_nat 1 mod 3 =? 1) with true in Hrun.
    cbn [read_bytes] in Hrun. unfold ret in Hrun.
    injection Hrun as _ <-. cbn [self set_buffer buffer].
    change ((Z.of_nat 1 + 2) / 3) with 1. lia.
  - destruct (read_bytes_unfold (S read) next crc success σ) as [buf [_ [_ Hstep]]].
    cbv zeta in Hstep. rewrite Hstep in Hrun.
    destruct (Z.of_nat (S (S read)) mod 3 =? 1) eqn:Hmod.
    + apply Z.eqb_eq in Hmod. apply IH in Hrun. lia_div.
    + apply Z.eqb_neq in Hmod. apply IH in Hrun. lia_div.
Qed.

(** X16. [ReadData] has no check against the size of [buffer]: it keeps
    its stores inside the 13 bytes exactly when the bus delivers at most
    19 bytes.  For up to 6 words that is always so; from 7 words on a
    complete answer is stored past the end of the array, the last member
    of the object. *)
Theorem ReadData_overrun_iff (n : Z) (σ : World) :
  valid σ ->
  let d := Wire.delivered (to_uint8 (n * 3)) (bus σ) in
  exists ok σ',
    ReadData n σ = Some (ok, σ') /\
    (length (buffer (self σ')) = buffer_size <-> (length d <= 19)%nat) /\
    (0 <= n <= 6 -> length (buffer (self σ')) = buffer_size) /\
    (7 <= n <= 85 -> Z.of_nat (length d) = 3 * n ->
     (buffer_size < length (buffer (self σ')))%nat).
Proof.
  intros Hvalid d.
  destruct (ReadData_any n σ) as [buf Hany]. fold d in Hany.
  eexists _, _. split; [exact Hany |].
  assert (Hiff : length buf = buffer_size <-> (length d <= 19)%nat).
  { split.
    - intros Hlen.
      destruct (Nat.le_gt_cases (length d) 19) as [Hle | Hgt]; [exact Hle | exfalso].
      destruct (ReadData_loop n σ) as [bufc Hloop]. fold d in Hloop.
      rewrite Hloop in Hany.
      destruct (length d) as [| k] eqn:Hk; [lia |].
      apply read_bytes_reach in Hany.
      cbn [self set_bus set_buffer buffer] in Hany.
      unfold buffer_size in Hlen. lia_div.
    - intros Hle.
      destruct (ReadData_run n σ Hvalid) as [buf' [Hrun [Hlen _]]];
        [fold d; lia_div |].
      fold d in Hrun. rewrite Hany in Hrun.
      injection Hrun as Hbuf.
      assert (Hsame : buffer (self (set_buffer buf σ)) = buffer (self (set_buffer buf' σ)))
        by (rewrite Hbuf; reflexivity).
      cbn [self set_buffer buffer] in Hsame. subst buf'. exact Hlen. }
  cbn [self set_bus set_buffer buffer].
  split; [exact Hiff | split].
  - intros Hn. apply Hiff.
    pose proof (delivered_length (to_uint8 (n * 3)) (bus σ)) as Hd.
    fold d in Hd. rewrite (request_quantity n) in Hd by lia. lia.
  - intros Hn Hfull.
    destruct (Nat.eq_dec (length buf) buffer_size) as [Heq | Hne].
    + apply Hiff in Heq. lia.
    + destruct (Nat.le_gt_cases (length buf) buffer_size) as [Hle | Hgt]; [| exact Hgt].
      exfalso.
      destruct (ReadData_loop n σ) as [bufc Hloop]. fold d in Hloop.
      rewrite Hloop in Hany.
      destruct (length d) as [| k] eqn:Hk; [lia |].
      apply read_bytes_reach in Hany.
      cbn [self set_bus set_buffer buffer] in Hany.
      unfold buffer_size in *. lia_div.
Qed.

Lemma ReadData_overrun_iff_witness :
  let σ := world_seven_words in
  valid σ /\
  Z.of_nat (length (Wire.delivered (to_uint8 (7 * 3)) (bus σ))) = 3 * 7 /\
  exists ok σ',
    ReadData 7 σ = Some (ok, σ') /\
    (buffer_size < length (buffer (self σ')))%nat.
Proof.
  cbv zeta.
  split; [apply world_with_valid | split; [reflexivity |]].
  destruct (ReadData_overrun_iff 7 world_seven_words (world_with_valid _ _ _ _))
    as [ok [σ' [Hrun [_ [_ Hover]]]]].
  exists ok, σ'. split; [exact Hrun |].
  apply Hover; [lia | reflexivity].
Defined.

(** X17. [Begin] sets the model only when it succeeds.  If [Begin] returns
    success, [number] is [SDP31] with pressure scale 60 or [SDP32] with
    pressure scale 240; if it returns failure, for an unknown identifier
    as for a failed read, [number] is what it was before the call. *)
Theorem Begin_sets_model_only_on_success (modelNumber : N) (σ σ' : World) (ok : bool) :
  valid σ ->
  Begin modelNumber σ = Some (ok, σ') ->
  if ok
  then (number (self σ') = SDP31 /\ GetPressureScale (self σ') = 60) \/
       (number (self σ') = SDP32 /\ GetPressureScale (self σ') = 240)
  else number (self σ') = number (self σ).
Proof.
  intros Hvalid Hbegin.
  destruct (Begin_model_detection modelNumber σ Hvalid) as [ok1 [σ1 [Hrun Hcases]]].
  destruct (ReadProductID_returns (Some modelNumber) None σ Hvalid)
    as [ok1' [σ1' [Hrun' Hnum]]].
  assert (σ1' = σ1) by congruence. subst σ1'. clear Hrun' ok1'.
  assert (Hscale : forall s, GetPressureScale s = 60 -> number s = SDP31).
  { intros s. unfold GetPressureScale.
    destruct (Z.eqb_spec (number s) SDP31) as [E | E]; [intros _; exact E |].
    destruct (number s =? SDP32); discriminate. }
  assert (Hscale2 : forall s, GetPressureScale s = 240 -> number s = SDP32).
  { intros s. unfold GetPressureScale.
    destruct (number s =? SDP31); [discriminate |].
    destruct (Z.eqb_spec (number s) SDP32) as [E | E]; [intros _; exact E | discriminate]. }
  destruct ok1; cbn [negb] in Hcases.
  - destruct (mem σ1 modelNumber =? 0x03010188).
    + destruct Hcases as [σ2 [Hb2 Hs2]]. rewrite Hbegin in Hb2.
      assert (ok = true) by congruence. assert (σ2 = σ') by congruence. subst ok σ2.
      left. split; [apply Hscale |]; exact Hs2.
    + destruct (mem σ1 modelNumber =? 0x03010288).
      * destruct Hcases as [σ2 [Hb2 Hs2]]. rewrite Hbegin in Hb2.
        assert (ok = true) by congruence. assert (σ2 = σ') by congruence. subst ok σ2.
        right. split; [apply Hscale2 |]; exact Hs2.
      * destruct Hcases as [Hb2 _]. rewrite Hbegin in Hb2.
        assert (ok = false) by congruence. assert (σ' = σ1) by congruence. subst ok σ'.
        exact Hnum.
  - destruct Hcases as [Hb2 _]. rewrite Hbegin in Hb2.
    assert (ok = false) by congruence. assert (σ' = σ1) by congruence. subst ok σ'.
    exact Hnum.
Qed.

Lemma Begin_sets_model_only_on_success_witness :
  let σ := mkWorld (mkSDP3x SDP32 Address2 MassFlow (repeat 0 13))
                   (Wire.mkTwoWire [] [] [2; 2] [0; 2] []) (fun _ => 0) in
  valid σ /\
  exists σ', Begin 0%N σ = Some (false, σ') /\ number (self σ') = SDP32.
Proof.
  cbv zeta.
  set (σ := mkWorld (mkSDP3x SDP32 Address2 MassFlow (repeat 0 13))
                    (Wire.mkTwoWire [] [] [2; 2] [0; 2] []) (fun _ => 0)).
  assert (Hv : valid σ).
  { split; [reflexivity |]. simpl. repeat constructor; unfold is_uint8; lia. }
  split; [exact Hv |].
  assert (Hx : exists σx, Begin 0%N σ = Some (false, σx))
    by (eexists; vm_compute; reflexivity).
  destruct Hx as [σx Hx]. exists σx. split; [exact Hx |].
  exact (Begin_sets_model_only_on_success 0%N σ σx false Hv Hx).
Defined.
